(** * RadioIQ report generator: image pipeline and document compositor

    A shallow embedding of [server/main.py]: the DICOM intensity normaliser
    ([process_dicom]), the annotation renderer ([process_image]), the page
    decorator ([fetch_logo], [_add_page_decorations]), the document compositor
    ([generate_pdf_report]) and the endpoint that chains them
    ([create_report]).

    Python floats are IEEE-754 binary64 values; they are embedded with the
    executable specification of the Standard Library ([SpecFloat]) at
    precision 53 and maximal exponent 1024.  Pillow images are mutable
    objects: they live in a store indexed by locations, and the content of an
    image is the term of Pillow calls that built it.  Functions of pydicom,
    numpy, Pillow, reportlab and the Python runtime whose code is not part of
    the repository are the methods of the interface classes below. *)

From Stdlib Require Import ZArith Lia Floats.SpecFloat.
From stdpp Require Import gmap strings list fin_maps pretty.

#[local] Set Warnings "-register-all".
#[local] Open Scope Z_scope.

(** ** Exceptions and results *)

Inductive exn :=
| HTTPException (status_code : Z) (detail : string)
| InvalidDicomError
| NotImplementedError
| AttributeError
| TypeError
| ValueError
| OverflowError
| ZeroDivisionError
| UnidentifiedImageError
| OSError
| FileNotFoundError
| LayoutError.

Inductive result (A : Type) :=
| Ok (a : A)
| Raise (e : exn).
Arguments Ok {A} a.
Arguments Raise {A} e.

Definition bytes := list Byte.byte.

(** The status line the web framework answers with when a handler raises:
    an [HTTPException] carries its own code, anything else is a server
    error. *)
Definition response_status (e : exn) : Z :=
  match e with
  | HTTPException c _ => c
  | _ => 500
  end.

(** ** Binary64 arithmetic *)

Module F64.
Definition float := spec_float.
Definition prec := 53.
Definition emax := 1024.

Definition of_Z (n : Z) : float := binary_normalize prec emax n 0 false.
Definition zero : float := S754_zero false.
Definition one : float := S754_finite false 4503599627370496 (-52).
Definition nan : float := S754_nan.

Definition add : float -> float -> float := SFadd prec emax.
Definition sub : float -> float -> float := SFsub prec emax.
Definition mul : float -> float -> float := SFmul prec emax.
Definition div : float -> float -> float := SFdiv prec emax.
Definition ltb : float -> float -> bool := SFltb.

Definition is_nan (x : float) : bool :=
  match x with S754_nan => true | _ => false end.

Definition is_zero (x : float) : bool :=
  match x with S754_zero _ => true | _ => false end.

(** The integer part of a finite value, rounding toward zero; [None] for
    NaN and the infinities. *)
Definition trunc (x : float) : option Z :=
  match x with
  | S754_zero _ => Some 0
  | S754_finite s m e =>
      let v := match e with
               | Z.neg k => Z.shiftr (Z.pos m) (Z.pos k)
               | _ => Z.shiftl (Z.pos m) e
               end in
      Some (if s then - v else v)
  | _ => None
  end.
End F64.

Abbreviation float := F64.float.

(** ** numpy arrays *)

Record dtype := { dt_signed : bool; dt_bits : Z }.

(** Integer arithmetic of a fixed-width dtype wraps around. *)
Definition wrap (dt : dtype) (v : Z) : Z :=
  let m := 2 ^ dt_bits dt in
  if dt_signed dt then (v + m / 2) mod m - m / 2 else v mod m.

(** The samples of a decoded pixel buffer: stored integers of some dtype, or
    float64 values when a window transform was applied. *)
Inductive samples :=
| Ints (dt : dtype) (vs : list Z)
| Floats (vs : list float).

Record ndarray := { nd_rows : Z; nd_cols : Z; nd_data : samples }.

(** numpy's [astype(np.uint8)] is a C conversion: it truncates toward zero
    when the result fits the type and is unspecified otherwise (NaN
    included).  The host's choice in the unspecified case is a method. *)
Class Numpy := { cast_unrepresentable : float -> Z }.

Module Np.
Definition amin (v : Z) (vs : list Z) : Z := fold_left Z.min vs v.
Definition amax (v : Z) (vs : list Z) : Z := fold_left Z.max vs v.

(** Minimum and maximum of floats propagate NaN, as numpy's do. *)
Definition fmin2 (a b : float) : float :=
  if F64.is_nan a then a else if F64.is_nan b then b
  else if F64.ltb b a then b else a.
Definition fmax2 (a b : float) : float :=
  if F64.is_nan a then a else if F64.is_nan b then b
  else if F64.ltb a b then b else a.
Definition famin (v : float) (vs : list float) : float := fold_left fmin2 vs v.
Definition famax (v : float) (vs : list float) : float := fold_left fmax2 vs v.

(** [(a - a.min()) / (a.max() - a.min()) * 255.0]: subtraction in the
    array's dtype, true division and product in float64.  A reduction of
    an empty array raises. *)
Definition rescale (a : samples) : result (list float) :=
  match a with
  | Ints dt [] => Raise ValueError
  | Ints dt ((v :: tl) as vs) =>
      let mn := amin v tl in
      let mx := amax v tl in
      let range := wrap dt (mx - mn) in
      Ok (map (fun p => F64.mul (F64.div (F64.of_Z (wrap dt (p - mn)))
                                         (F64.of_Z range))
                                (F64.of_Z 255)) vs)
  | Floats [] => Raise ValueError
  | Floats ((v :: tl) as vs) =>
      let mn := famin v tl in
      let mx := famax v tl in
      let range := F64.sub mx mn in
      Ok (map (fun p => F64.mul (F64.div (F64.sub p mn) range)
                                (F64.of_Z 255)) vs)
  end.

Definition astype_uint8 `{Numpy} (x : float) : Z :=
  match F64.trunc x with
  | Some v => if (0 <=? v) && (v <=? 255) then v
              else cast_unrepresentable x mod 256
  | None => cast_unrepresentable x mod 256
  end.

(** [np.invert] on uint8: bitwise complement of the eight bits. *)
Definition invert (v : Z) : Z := Z.land (Z.lnot v) 255.
End Np.

(** ** Pillow images and the object store *)

Definition box : Type := float * float * float * float.
Definition point : Type := float * float.

(** The content of an image is the term of Pillow calls that produced it:
    two images built by the same calls on the same data hold the same
    pixels. *)
Inductive image :=
| FromArray (rows cols : Z) (px : list Z)
| Opened (content : bytes) (size : Z * Z)
| NewImage (mode : string) (size : Z * Z) (color : Z * Z * Z)
| Resize (src : image) (size : Z * Z)
| Convert (src : image) (mode : string)
| Paste (dst src : image)
| DrawRectangle (dst : image) (xy : box) (outline : string) (width : Z)
| DrawText (dst : image) (xy : point) (text : string) (fill : string).

Fixpoint image_size (i : image) : Z * Z :=
  match i with
  | FromArray rows cols _ => (cols, rows)
  | Opened _ sz => sz
  | NewImage _ sz _ => sz
  | Resize _ sz => sz
  | Convert src _ => image_size src
  | Paste dst _ => image_size dst
  | DrawRectangle dst _ _ _ => image_size dst
  | DrawText dst _ _ _ => image_size dst
  end.

(** [Image.open] reads the header (and fails on an unknown format); the
    raster is decoded when the pixels are first needed.  The drawing calls
    of [ImageDraw] may refuse their arguments (a coordinate that does not
    fit a C integer, a text the font cannot render): whether they do is
    Pillow's. *)
Class Pillow := {
  Image_open : bytes -> result (Z * Z);
  Image_load : bytes -> result unit;
  ImageDraw_rectangle : image -> box -> string -> Z -> result unit;
  ImageDraw_text : image -> point -> string -> string -> result unit
}.

Abbreviation loc := nat.
Abbreviation heap := (gmap loc image).

(** Computations that may raise and that read and write the store. *)
Definition M (A : Type) : Type := heap -> result (A * heap).

Definition ret {A} (a : A) : M A := fun h => Ok (a, h).
Definition raise {A} (e : exn) : M A := fun _ => Raise e.
Definition bind {A B} (c : M A) (k : A -> M B) : M B :=
  fun h => match c h with
           | Ok (a, h') => k a h'
           | Raise e => Raise e
           end.
Definition lift {A} (r : result A) : M A :=
  fun h => match r with Ok a => Ok (a, h) | Raise e => Raise e end.

(** [try: c except Exception as e: handler e].  The handlers of this
    program raise again, so the store of the failed body is not kept. *)
Definition try_except {A} (c : M A) (handler : exn -> M A) : M A :=
  fun h => match c h with
           | Ok r => Ok r
           | Raise e => handler e h
           end.

Declare Scope py_scope.
Delimit Scope py_scope with py.
Notation "x <- c ;; k" := (bind c (fun x => k))
  (at level 100, c at next level, right associativity) : py_scope.
Notation "c ;;; k" := (bind c (fun _ => k))
  (at level 100, right associativity) : py_scope.
#[local] Open Scope py_scope.

(** A new object gets a location no live object has. *)
Definition alloc (i : image) : M loc :=
  fun h => let l := fresh (dom h) in Ok (l, <[l := i]> h).

Definition deref (l : loc) : M image :=
  fun h => match h !! l with
           | Some i => Ok (i, h)
           | None => Raise AttributeError
           end.

Definition store (l : loc) (i : image) : M unit :=
  fun h => Ok (tt, <[l := i]> h).

(** Methods that return a new image. *)
Definition img_resize `{Pillow} (l : loc) (size : Z * Z) : M loc :=
  i <- deref l ;;
  match i with
  | Opened content _ => lift (Image_load content)
  | _ => ret tt
  end ;;;
  alloc (Resize i size).

Definition img_convert (l : loc) (mode : string) : M loc :=
  i <- deref l ;; alloc (Convert i mode).

Definition img_copy (l : loc) : M loc :=
  i <- deref l ;; alloc i.

(** Methods of [ImageDraw.Draw(l)]: they paint on the image at [l], unless
    Pillow raises. *)
Definition draw_rectangle `{Pillow} (l : loc) (xy : box) (outline : string)
    (width : Z) : M unit :=
  i <- deref l ;;
  lift (ImageDraw_rectangle i xy outline width) ;;;
  store l (DrawRectangle i xy outline width).

(** ** pydicom *)

Record dataset := {
  ds_pixel_array : result ndarray;
  ds_PhotometricInterpretation : option string
}.

Class Pydicom := {
  dcmread : bytes -> result dataset;
  apply_voi_lut : ndarray -> dataset -> result ndarray
}.

(** ** Intensity normaliser *)

(** The array steps of [process_dicom]: min-max rescale, conversion to
    uint8, then the polarity test on the dataset's (possibly missing)
    [PhotometricInterpretation] attribute. *)
Definition normalize_pixels `{Numpy} (a : samples) (photometric : option string)
  : result (list Z) :=
  match Np.rescale a with
  | Raise e => Raise e
  | Ok scaled =>
      let px := map Np.astype_uint8 scaled in
      match photometric with
      | None => Raise AttributeError
      | Some p =>
          Ok (if String.eqb p "MONOCHROME1" then map Np.invert px else px)
      end
  end.

Definition process_dicom `{Pydicom} `{Numpy} (file_stream : bytes) : M loc :=
  try_except
    (dicom <- lift (dcmread file_stream) ;;
     raw <- lift (ds_pixel_array dicom) ;;
     pixel_array <- lift (apply_voi_lut raw dicom) ;;
     px <- lift (normalize_pixels (nd_data pixel_array)
                   (ds_PhotometricInterpretation dicom)) ;;
     alloc (FromArray (nd_rows pixel_array) (nd_cols pixel_array) px))
    (fun e => match e with
              | InvalidDicomError =>
                  raise (HTTPException 400 "DICOM processing error")
              | _ => raise e
              end).

(** ** JSON values and the Python runtime *)

Inductive json :=
| JNull
| JBool (b : bool)
| JInt (n : Z)
| JFloat (f : float)
| JStr (s : string)
| JArr (items : list json)
| JObj (fields : gmap string json).

(** [json.loads], [float] on a string and [str] on a value that is not a
    string belong to the runtime. *)
Class Python := {
  json_loads : string -> result json;
  float_of_str : string -> option float;
  py_str : json -> string
}.

(** [d.get(key, default)]: only a dict has the method. *)
Definition dict_get (d : json) (key : string) (dflt : json) : result json :=
  match d with
  | JObj fields => Ok (default dflt (fields !! key))
  | _ => Raise AttributeError
  end.

(** [float(v)] *)
Definition py_float `{Python} (v : json) : result float :=
  match v with
  | JInt n =>
      match F64.of_Z n with
      | S754_infinity _ => Raise OverflowError
      | f => Ok f
      end
  | JFloat f => Ok f
  | JBool b => Ok (if b then F64.one else F64.zero)
  | JStr s =>
      match float_of_str s with
      | Some f => Ok f
      | None => Raise ValueError
      end
  | _ => Raise TypeError
  end.

(** Truth value of an object in a condition. *)
Definition truthy (v : json) : bool :=
  match v with
  | JNull => false
  | JBool b => b
  | JInt n => negb (n =? 0)
  | JFloat f => negb (F64.is_zero f)
  | JStr s => negb (String.eqb s "")
  | JArr items => match items with [] => false | _ => true end
  | JObj fields => negb (bool_decide (fields = ∅))
  end.

(** [a / b] on integers. The quotient of two integers below 2^53 is the
    correctly rounded one, which is what the division of their float
    values gives. *)
Definition py_truediv (a b : Z) : result float :=
  if b =? 0 then Raise ZeroDivisionError
  else Ok (F64.div (F64.of_Z a) (F64.of_Z b)).

(** [max(a, 0)] on a float: the second argument wins only when it is
    strictly greater. *)
Definition py_max0 (a : float) : float :=
  if F64.ltb a F64.zero then F64.zero else a.

(** ASCII case folding of [str.lower]. *)
Definition lower_ascii (c : Ascii.ascii) : Ascii.ascii :=
  let n := Ascii.nat_of_ascii c in
  if ((65 <=? n) && (n <=? 90))%nat then Ascii.ascii_of_nat (n + 32) else c.

Fixpoint lower (s : string) : string :=
  match s with
  | EmptyString => EmptyString
  | String c rest => String (lower_ascii c) (lower rest)
  end.

Definition dot : Ascii.ascii := Ascii.ascii_of_nat 46.

Fixpoint has_dot (s : string) : bool :=
  match s with
  | EmptyString => false
  | String c rest => Ascii.eqb c dot || has_dot rest
  end.

(** [s.rsplit('.', 1)[-1]]: what follows the last dot, the whole string
    when there is none. *)
Fixpoint rsplit_dot_last (s : string) : string :=
  match s with
  | EmptyString => EmptyString
  | String c rest =>
      if has_dot rest then rsplit_dot_last rest
      else if Ascii.eqb c dot then rest else s
  end.

Definition endswith (s suffix : string) : bool :=
  let n := String.length s in
  let m := String.length suffix in
  (m <=? n)%nat && String.eqb (String.substring (n - m) m s) suffix.

(** ** Annotation renderer *)

Record UploadFile := { filename : string; file : bytes }.

Definition image_open `{Pillow} (content : bytes) : M loc :=
  size <- lift (Image_open content) ;; alloc (Opened content size).

(** [draw.text]: the text has to be a string, and Pillow may still refuse
    the call. *)
Definition draw_text `{Pillow} (l : loc) (xy : point) (text : json)
    (fill : string) : M unit :=
  match text with
  | JStr t =>
      i <- deref l ;;
      lift (ImageDraw_text i xy t fill) ;;;
      store l (DrawText i xy t fill)
  | _ => raise TypeError
  end.

(** [float(bbox.get(key, 0)) * s] *)
Definition scaled_field `{Python} (bbox : json) (key : string) (s : float)
  : result float :=
  match dict_get bbox key (JInt 0) with
  | Raise e => Raise e
  | Ok v =>
      match py_float v with
      | Raise e => Raise e
      | Ok f => Ok (F64.mul f s)
      end
  end.

(** The body of the loop of [process_image] for one entry. *)
Definition annotate_entry `{Pillow} `{Python} (sx sy : float)
    (annotated : loc) (ab : json) : M unit :=
  bbox <- lift (dict_get ab "bbox" (JObj ∅)) ;;
  label <- lift (dict_get ab "name" (JStr "")) ;;
  try_except
    (x <- lift (scaled_field bbox "x" sx) ;;
     y <- lift (scaled_field bbox "y" sy) ;;
     w <- lift (scaled_field bbox "width" sx) ;;
     h <- lift (scaled_field bbox "height" sy) ;;
     if F64.ltb F64.zero w && F64.ltb F64.zero h then
       draw_rectangle annotated (x, y, F64.add x w, F64.add y h) "red" 3 ;;;
       if truthy label then
         draw_text annotated (x, py_max0 (F64.sub y (F64.of_Z 14))) label "red"
       else ret tt
     else ret tt)
    (fun _ => raise (HTTPException 400 "Invalid bbox")).

Fixpoint annotate_all `{Pillow} `{Python} (sx sy : float)
    (annotated : loc) (abnormalities : list json) : M unit :=
  match abnormalities with
  | [] => ret tt
  | ab :: rest =>
      annotate_entry sx sy annotated ab ;;;
      annotate_all sx sy annotated rest
  end.

Definition target : Z := 1024.

Definition process_image `{Pydicom} `{Numpy} `{Pillow} `{Python}
    (f : UploadFile) (abnormalities : list json) : M (loc * loc) :=
  let ext := lower (rsplit_dot_last (filename f)) in
  let content := file f in
  img <- (if bool_decide (ext ∈ ["dcm"; "dicom"; "dic"]) then
            process_dicom content
          else if String.eqb ext "png" then image_open content
          else raise (HTTPException 400 "Unsupported file format")) ;;
  i <- deref img ;;
  let orig_w := fst (image_size i) in
  let orig_h := snd (image_size i) in
  resized <- img_resize img (target, target) ;;
  img_resized <- img_convert resized "RGB" ;;
  annotated <- img_copy img_resized ;;
  sx <- lift (py_truediv target orig_w) ;;
  sy <- lift (py_truediv target orig_h) ;;
  annotate_all sx sy annotated abnormalities ;;;
  ret (img_resized, annotated).

(** ** Page decorator *)

Definition inch : float := F64.of_Z 72.
Definition letter : float * float := (F64.of_Z 612, F64.of_Z 792).

(** The float written [n/d] in decimal notation, e.g. [1.2] as [dec 12 10]. *)
Definition dec (n d : Z) : float := F64.div (F64.of_Z n) (F64.of_Z d).

(** The file system and the clock. *)
Class World := {
  logo_asset : result bytes;
  strftime_now : string -> string
}.

Definition fetch_logo `{World} `{Pillow} : result (image * (float * float)) :=
  let attempt : result (image * (float * float)) :=
    match logo_asset with
    | Raise e => Raise e
    | Ok content =>
        match Image_open content with
        | Raise e => Raise e
        | Ok size =>
            match Image_load content with
            | Raise e => Raise e
            | Ok _ =>
                let img := Convert (Opened content size) "RGBA" in
                let disp_w := F64.mul (dec 15 10) inch in
                match py_truediv (snd size) (fst size) with
                | Raise e => Raise e
                | Ok aspect =>
                    let disp_h := F64.mul disp_w aspect in
                    let bg := NewImage "RGB" size (255, 255, 255) in
                    Ok (Paste bg img, (disp_w, disp_h))
                end
            end
        end
    end in
  match attempt with
  | Ok r => Ok r
  | Raise _ => Raise (HTTPException 500 "Logo load failed")
  end.

Inductive canvas_op :=
| SaveState
| RestoreState
| DrawImage (img : image) (x y width height : float) (mask : string)
| SetFont (name : string) (size : Z)
| DrawRightString (x y : float) (text : string)
| DrawCentredString (x y : float) (text : string).

Record doc_template := {
  leftMargin : float;
  rightMargin : float;
  topMargin : float;
  bottomMargin : float
}.

Definition footer : string :=
  "This is an AI generated report. The findings are to be used for diagnostic purposes " +:+
  "in consultation with a licensed medical expert.".

(** The drawing calls issued on the canvas of page [page_number]. *)
Definition _add_page_decorations `{World} `{Pillow}
    (page_number : Z) (doc : doc_template) : list canvas_op :=
  let '(w, h) := letter in
  [SaveState] ++
  (if page_number =? 1 then
     (match fetch_logo with
      | Ok (logo_buf, (lw, lh)) =>
          [DrawImage logo_buf (leftMargin doc)
             (F64.sub (F64.sub h lh) (F64.of_Z 10)) lw lh "auto"]
      | Raise _ => []
      end) ++
     [SetFont "Helvetica" 10;
      DrawRightString (F64.sub w (rightMargin doc))
        (F64.add (F64.sub h (topMargin doc)) (F64.of_Z 20))
        (strftime_now "Date: %Y-%m-%d");
      DrawRightString (F64.sub w (rightMargin doc))
        (F64.add (F64.sub h (topMargin doc)) (F64.of_Z 4))
        (strftime_now "Time: %H:%M:%S")]
   else []) ++
  [SetFont "Helvetica" 8;
   DrawCentredString (F64.div w (F64.of_Z 2))
     (F64.div (bottomMargin doc) (F64.of_Z 2)) footer;
   RestoreState].

(** ** Document compositor *)

Record ParagraphStyle := {
  ps_name : string;
  ps_fontName : option string;
  ps_fontSize : option Z;
  ps_leading : option Z;
  ps_alignment : option Z;
  ps_spaceAfter : option Z;
  ps_textColor : option string
}.

Definition TA_CENTER : Z := 1.

Definition Header : ParagraphStyle :=
  {| ps_name := "Header"; ps_fontName := Some "Helvetica-Bold";
     ps_fontSize := Some 24; ps_leading := Some 28;
     ps_alignment := Some TA_CENTER; ps_spaceAfter := Some 12;
     ps_textColor := None |}.
Definition SectionHeader : ParagraphStyle :=
  {| ps_name := "SectionHeader"; ps_fontName := Some "Helvetica-Bold";
     ps_fontSize := Some 12; ps_leading := Some 14;
     ps_alignment := None; ps_spaceAfter := Some 6;
     ps_textColor := Some "#003366" |}.
Definition SubHeader : ParagraphStyle :=
  {| ps_name := "SubHeader"; ps_fontName := Some "Helvetica-Bold";
     ps_fontSize := Some 11; ps_leading := Some 13;
     ps_alignment := None; ps_spaceAfter := Some 4;
     ps_textColor := None |}.
Definition CustomNormal : ParagraphStyle :=
  {| ps_name := "CustomNormal"; ps_fontName := None;
     ps_fontSize := Some 10; ps_leading := Some 12;
     ps_alignment := None; ps_spaceAfter := None;
     ps_textColor := None |}.

Inductive style_arg := SStr (s : string) | SInt (n : Z).
Definition style_cmd : Type := string * (Z * Z) * (Z * Z) * style_arg.

Inductive flowable :=
| Spacer (width height : Z)
| Paragraph (text : string) (style : ParagraphStyle)
| Table (data : list (list cell)) (colWidths : list float)
        (style : list style_cmd)
| PageBreak
| RLImage (img : image) (width height : float)
with cell :=
| CStr (s : string)
| CFlow (f : flowable).

Definition details_style : list style_cmd :=
  [("FONTNAME", (0, 0), (0, -1), SStr "Helvetica-Bold");
   ("ALIGN", (0, 0), (-1, -1), SStr "LEFT");
   ("BOTTOMPADDING", (0, 0), (-1, -1), SInt 4)].

(** [det.get(key, 'N/A')] *)
Definition det_get (det : gmap string string) (key : string) : string :=
  default "N/A" (det !! key).

Definition left_rows (det : gmap string string) : list (string * string) :=
  [("Name:", det_get det "patientName");
   ("ID:", det_get det "patientId");
   ("Gender:", det_get det "gender");
   ("Age:", det_get det "age");
   ("Location:", det_get det "location")].

Definition right_rows (det : gmap string string) : list (string * string) :=
  [("Exam Date:", det_get det "dateOfExam");
   ("Physician:", det_get det "referredPhysician");
   ("Radiologist:", det_get det "radiologist");
   ("Exam Type:", det_get det "examType");
   ("Body Part:", det_get det "bodyPart")].

Definition details_table (rows : list (string * string)) : flowable :=
  Table (map (fun r => [CStr (fst r); CStr (snd r)]) rows)
        [F64.mul (dec 12 10) inch; F64.mul (dec 23 10) inch]
        details_style.

Definition patient_details (det : gmap string string) : list flowable :=
  [Paragraph "PATIENT DETAILS" SectionHeader;
   Table [[CFlow (details_table (left_rows det));
           CFlow (details_table (right_rows det))]]
         [F64.mul (dec 35 10) inch; F64.mul (dec 35 10) inch] [];
   Spacer 1 12].

(** reportlab parses the text of a [Paragraph] as markup when the object is
    constructed, and raises on text it cannot parse; its frame filling
    splits the story into physical pages, or fails. *)
Class Reportlab := {
  Paragraph_parse : string -> result unit;
  layout : list flowable -> result (list (list flowable))
}.

(** [Paragraph(text, style)] *)
Definition new_paragraph `{Reportlab} (text : string) (style : ParagraphStyle)
  : result flowable :=
  match Paragraph_parse text with
  | Ok _ => Ok (Paragraph text style)
  | Raise e => Raise e
  end.

(** The constructor calls behind a list of flowables, in order: the first
    paragraph that reportlab refuses raises. *)
Fixpoint construct `{Reportlab} (items : list flowable) : result unit :=
  match items with
  | [] => Ok tt
  | Paragraph text _ :: rest =>
      match Paragraph_parse text with
      | Ok _ => construct rest
      | Raise e => Raise e
      end
  | _ :: rest => construct rest
  end.

(** The value of a replacement field of an f-string. *)
Definition format_value `{Python} (v : json) : string :=
  match v with
  | JStr s => s
  | _ => py_str v
  end.

(** [for i, ab in enumerate(ab_list, i0)] building one paragraph each. *)
Fixpoint enumerated `{Python} `{Reportlab} (i : Z) (ab_list : list json)
  : result (list flowable) :=
  match ab_list with
  | [] => Ok []
  | ab :: rest =>
      match dict_get ab "name" (JStr "Unnamed") with
      | Raise e => Raise e
      | Ok name =>
          match new_paragraph (pretty i +:+ ". " +:+ format_value name)
                  CustomNormal with
          | Raise e => Raise e
          | Ok p =>
              match enumerated (i + 1) rest with
              | Raise e => Raise e
              | Ok ps => Ok (p :: ps)
              end
          end
      end
  end.

Definition findings `{Python} `{Reportlab} (abnormal : bool)
    (ab_list : list json) : result (list flowable) :=
  if abnormal && negb (bool_decide (ab_list = [])) then
    match new_paragraph "Abnormalities:" SubHeader with
    | Raise e => Raise e
    | Ok head =>
        match enumerated 1 ab_list with
        | Raise e => Raise e
        | Ok ps => Ok (head :: ps)
        end
    end
  else
    match new_paragraph "Normal" CustomNormal with
    | Raise e => Raise e
    | Ok p => Ok [p]
    end.

Record pdf_page := {
  pg_number : Z;
  pg_canvas : list canvas_op;
  pg_content : list flowable
}.

Definition report_template : doc_template :=
  {| leftMargin := F64.mul (dec 75 100) inch;
     rightMargin := F64.mul (dec 75 100) inch;
     topMargin := F64.mul (F64.of_Z 1) inch;
     bottomMargin := F64.mul (F64.of_Z 1) inch |}.

(** The story up to the findings, and after them. *)
Definition elems_before (det : gmap string string) : list flowable :=
  [Spacer 1 24; Paragraph "CXR Medical Report" Header; Spacer 1 12] ++
  patient_details det ++
  [Paragraph "FINDINGS" SectionHeader].

Definition elems_notes (det : gmap string string) : list flowable :=
  [Spacer 1 12;
   Paragraph "TB Possibility:" SubHeader;
   Paragraph (det_get det "tbPossibility") CustomNormal;
   Spacer 1 12;
   Paragraph "DOCTOR NOTES" SectionHeader;
   Paragraph (det_get det "doctorNotes") CustomNormal].

Definition original_heading : flowable :=
  Paragraph "Original X-ray Image" SectionHeader.
Definition annotated_heading : flowable :=
  Paragraph "Annotated X-ray Image" SectionHeader.

Definition elems_after (det : gmap string string) (orig ann : image)
  : list flowable :=
  elems_notes det ++
  [PageBreak;
   original_heading;
   RLImage orig (F64.mul (F64.of_Z 6) inch) (F64.mul (F64.of_Z 6) inch);
   PageBreak;
   annotated_heading;
   RLImage ann (F64.mul (F64.of_Z 6) inch) (F64.mul (F64.of_Z 6) inch)].

(** The list [elems] handed to [doc.build].  Its flowables are constructed
    in the order of the source: header and details, findings, notes, then
    each image heading before its image is saved. *)
Definition report_elems `{Python} `{Reportlab} (orig ann : loc)
    (det : gmap string string) (abnormal : bool) (ab_list : list json)
  : M (list flowable) :=
  lift (construct (elems_before det)) ;;;
  fs <- lift (findings abnormal ab_list) ;;
  lift (construct (elems_notes det)) ;;;
  lift (construct [original_heading]) ;;;
  o <- deref orig ;;
  lift (construct [annotated_heading]) ;;;
  a <- deref ann ;;
  ret (elems_before det ++ fs ++ elems_after det o a).

Fixpoint decorate `{World} `{Pillow} (doc : doc_template) (n : Z)
    (pages : list (list flowable)) : list pdf_page :=
  match pages with
  | [] => []
  | content :: rest =>
      {| pg_number := n;
         pg_canvas := _add_page_decorations n doc;
         pg_content := content |} :: decorate doc (n + 1) rest
  end.

(** [doc.build(elems, onFirstPage=..., onLaterPages=...)] *)
Definition build `{World} `{Pillow} `{Reportlab} (doc : doc_template)
    (elems : list flowable) : result (list pdf_page) :=
  match layout elems with
  | Raise e => Raise e
  | Ok pages => Ok (decorate doc 1 pages)
  end.

Definition generate_pdf_report `{World} `{Pillow} `{Reportlab} `{Python}
    (orig ann : loc) (det : gmap string string) (abnormal : bool)
    (ab_list : list json) : M (list pdf_page) :=
  elems <- report_elems orig ann det abnormal ab_list ;;
  lift (build report_template elems).

(** ** The endpoint *)

Record request := {
  upload : UploadFile;
  form : gmap string string;
  isAbnormal : option bool;
  abnormalities : option string
}.

Record StreamingResponse := {
  body : list pdf_page;
  media_type : string;
  headers : list (string * string)
}.

(** A string parameter declared [Form('')]. *)
Definition form_field (req : request) (name : string) : string :=
  default "" (form req !! name).

Definition details (req : request) : gmap string string :=
  <["patientName" := form_field req "patientName"]>
  (<["dateOfExam" := form_field req "dateOfExam"]>
  (<["patientId" := form_field req "patientId"]>
  (<["gender" := form_field req "gender"]>
  (<["age" := form_field req "age"]>
  (<["location" := form_field req "location"]>
  (<["referredPhysician" := form_field req "referredPhysician"]>
  (<["radiologist" := form_field req "radiologist"]>
  (<["examType" := form_field req "examType"]>
  (<["bodyPart" := form_field req "bodyPart"]>
  (<["tbPossibility" := form_field req "tbPossibility"]>
  (<["doctorNotes" := form_field req "doctorNotes"]> ∅))))))))))).

(** [json.loads] followed by the [isinstance(ab_list, list)] test, any
    failure turned into a 400. *)
Definition parse_abnormalities `{Python} (req : request) : result (list json) :=
  match json_loads (default "[]" (abnormalities req)) with
  | Ok (JArr items) => Ok items
  | _ => Raise (HTTPException 400 "Invalid abnormalities")
  end.

Definition valid_suffix (name : string) : bool :=
  let n := lower name in
  endswith n ".dcm" || endswith n ".dicom" || endswith n ".dic"
  || endswith n ".png".

(** The image stage of [create_report]: validation, then [process_image]. *)
Definition report_images `{Pydicom} `{Numpy} `{Pillow} `{Python}
    (req : request) : M (list json * (loc * loc)) :=
  if negb (valid_suffix (filename (upload req))) then
    raise (HTTPException 400 "Invalid file format")
  else
    ab_list <- lift (parse_abnormalities req) ;;
    imgs <- process_image (upload req) ab_list ;;
    ret (ab_list, imgs).

Definition create_report `{Pydicom} `{Numpy} `{Pillow} `{Python} `{World}
    `{Reportlab} (req : request) : M StreamingResponse :=
  r <- report_images req ;;
  let ab_list := fst r in
  let orig := fst (snd r) in
  let ann := snd (snd r) in
  let det := details req in
  pdf <- generate_pdf_report orig ann det (default false (isAbnormal req))
           ab_list ;;
  ret {| body := pdf;
         media_type := "application/pdf";
         headers := [("Content-Disposition",
                      "attachment; filename=medical_report.pdf")] |}.

(** ** Vocabulary of the statements *)

Definition is_dict (v : json) : bool :=
  match v with JObj _ => true | _ => false end.

(** The name under which the findings list an entry. *)
Definition entry_name `{Python} (ab : json) : string :=
  match ab with
  | JObj fields => format_value (default (JStr "Unnamed") (fields !! "name"))
  | _ => ""
  end.

(** The rows of the patient-details block: label and key in [det]. *)
Definition detail_fields : list (string * string) :=
  [("Name:", "patientName"); ("ID:", "patientId"); ("Gender:", "gender");
   ("Age:", "age"); ("Location:", "location");
   ("Exam Date:", "dateOfExam"); ("Physician:", "referredPhysician");
   ("Radiologist:", "radiologist"); ("Exam Type:", "examType");
   ("Body Part:", "bodyPart")].

(** [bbox.get(key, 0)] on the fields of a bbox object. *)
Definition bbox_field (bf : gmap string json) (key : string) : json :=
  default (JInt 0) (bf !! key).


(** The same request with another value of the flag. *)
Definition with_isAbnormal (b : option bool) (req : request) : request :=
  {| upload := upload req; form := form req; isAbnormal := b;
     abnormalities := abnormalities req |}.

(** The rejections of the error taxonomy, as the code raises them. *)
Definition InvalidAnnotationError : exn := HTTPException 400 "Invalid bbox".
Definition DecodeError : exn := HTTPException 400 "DICOM processing error".

(** What the decorator draws on page 1 when no logo is drawn. *)
Definition first_page_without_logo `{World} (doc : doc_template)
  : list canvas_op :=
  [SaveState;
   SetFont "Helvetica" 10;
   DrawRightString (F64.sub (fst letter) (rightMargin doc))
     (F64.add (F64.sub (snd letter) (topMargin doc)) (F64.of_Z 20))
     (strftime_now "Date: %Y-%m-%d");
   DrawRightString (F64.sub (fst letter) (rightMargin doc))
     (F64.add (F64.sub (snd letter) (topMargin doc)) (F64.of_Z 4))
     (strftime_now "Time: %H:%M:%S");
   SetFont "Helvetica" 8;
   DrawCentredString (F64.div (fst letter) (F64.of_Z 2))
     (F64.div (bottomMargin doc) (F64.of_Z 2)) footer;
   RestoreState].

Definition is_DrawImage (op : canvas_op) : bool :=
  match op with DrawImage _ _ _ _ _ _ => true | _ => false end.

Definition footer_op (doc : doc_template) : canvas_op :=
  DrawCentredString (F64.div (fst letter) (F64.of_Z 2))
    (F64.div (bottomMargin doc) (F64.of_Z 2)) footer.

(** ** A small host for running the model

    Concrete libraries on which the definitions above evaluate: images are
    500 by 300 whenever the payload is not empty, every rectangle is drawn
    and a text is drawn when its anchor is left of x = 2^31, a DICOM stream
    is valid when it is not empty and its first byte selects the polarity, a
    paragraph is accepted when its text has no angle bracket, the story is
    cut at the page breaks, and the logo file is missing. *)

Module Sample.
Definition numpy : Numpy := {| cast_unrepresentable := fun _ => 0 |}.
Definition numpy' : Numpy := {| cast_unrepresentable := fun _ => 128 |}.

Definition uint8 : dtype := {| dt_signed := false; dt_bits := 8 |}.
Definition uint16 : dtype := {| dt_signed := false; dt_bits := 16 |}.

Definition byte_val (b : Byte.byte) : Z := Z.of_N (Byte.to_N b).

Definition pydicom : Pydicom :=
  {| dcmread content :=
       match content with
       | [] => Raise InvalidDicomError
       | b :: rest =>
           Ok {| ds_pixel_array :=
                   if byte_val b =? 255 then Raise NotImplementedError
                   else Ok {| nd_rows := 1;
                              nd_cols := Z.of_nat (length rest);
                              nd_data := Ints uint8 (map byte_val rest) |};
                 ds_PhotometricInterpretation :=
                   Some (if byte_val b =? 1 then "MONOCHROME1"
                         else "MONOCHROME2") |}
       end;
     apply_voi_lut a _ := Ok a |}.

Definition pillow : Pillow :=
  {| Image_open content :=
       match content with
       | [] => Raise UnidentifiedImageError
       | _ => Ok (500, 300)
       end;
     Image_load _ := Ok tt;
     ImageDraw_rectangle _ _ _ _ := Ok tt;
     ImageDraw_text _ xy _ _ :=
       if F64.ltb (fst xy) (F64.of_Z 2147483648) then Ok tt
       else Raise OverflowError |}.

Definition python : Python :=
  {| json_loads s :=
       if String.eqb s "[]" then Ok (JArr [])
       else if String.eqb s "{}" then Ok (JObj ∅)
       else Raise ValueError;
     float_of_str _ := None;
     py_str _ := "?" |}.

Definition world : World :=
  {| logo_asset := Raise FileNotFoundError;
     strftime_now fmt := fmt |}.

Fixpoint split_pages (cur : list flowable) (elems : list flowable)
  : list (list flowable) :=
  match elems with
  | [] => [cur]
  | PageBreak :: rest => cur :: split_pages [] rest
  | e :: rest => split_pages (cur ++ [e]) rest
  end.

Fixpoint has_angle (s : string) : bool :=
  match s with
  | EmptyString => false
  | String c rest => Ascii.eqb c (Ascii.ascii_of_nat 60) || has_angle rest
  end.

Definition reportlab : Reportlab :=
  {| Paragraph_parse text :=
       if has_angle text then Raise ValueError else Ok tt;
     layout elems := Ok (split_pages [] elems) |}.

Definition num (n : Z) : json := JInt n.

(** [{name: "Nodule", bbox: {x: 100, y: 50, width: 40, height: 30}}] *)
Definition nodule : json :=
  JObj (<["name" := JStr "Nodule"]>
        (<["bbox" := JObj (<["x" := num 100]> (<["y" := num 50]>
                          (<["width" := num 40]> (<["height" := num 30]> ∅))))]>
         ∅)).

(** A box of width 0, and a box whose [x] is not a number. *)
Definition flat_box : gmap string json :=
  <["x" := num 10]> (<["y" := num 20]>
  (<["width" := num 0]> (<["height" := num 30]> ∅))).
Definition flat_entry : gmap string json := <["bbox" := JObj flat_box]> ∅.

Definition canvas : image := NewImage "RGB" (1024, 1024) (0, 0, 0).
Definition one_image : heap := {[ 3%nat := canvas ]}.
Definition sx : float := F64.div (F64.of_Z 1024) (F64.of_Z 500).
Definition sy : float := F64.div (F64.of_Z 1024) (F64.of_Z 300).

Definition png_upload : UploadFile :=
  {| filename := "chest.PNG"; file := [Byte.x89; Byte.x50] |}.

Definition bad_png_upload : UploadFile :=
  {| filename := "chest.png"; file := [] |}.

Definition empty_request : request :=
  {| upload := png_upload; form := ∅; isAbnormal := None;
     abnormalities := None |}.
End Sample.

(** ** Vocabulary of the further properties *)

Definition samples_length (a : samples) : nat :=
  match a with
  | Ints _ vs => length vs
  | Floats vs => length vs
  end.

(** The test of [process_image] on the extension of a file name. *)
Definition supported_ext (name : string) : bool :=
  let ext := lower (rsplit_dot_last name) in
  bool_decide (ext ∈ ["dcm"; "dicom"; "dic"]) || String.eqb ext "png".

(** The image under the drawing calls, and the drawing calls counted. *)
Fixpoint undrawn (i : image) : image :=
  match i with
  | DrawRectangle dst _ _ _ => undrawn dst
  | DrawText dst _ _ _ => undrawn dst
  | _ => i
  end.

Fixpoint rectangles (i : image) : nat :=
  match i with
  | DrawRectangle dst _ _ _ => S (rectangles dst)
  | DrawText dst _ _ _ => rectangles dst
  | _ => 0
  end.

Fixpoint labels (i : image) : nat :=
  match i with
  | DrawRectangle dst _ _ _ => labels dst
  | DrawText dst _ _ _ => S (labels dst)
  | _ => 0
  end.

(** Every drawing call is a red rectangle of width 3,
    or a red text whose anchor is not above the top edge. *)
Fixpoint overlays_styled (i : image) : bool :=
  match i with
  | DrawRectangle dst _ outline width =>
      String.eqb outline "red" && (width =? 3) && overlays_styled dst
  | DrawText dst xy _ fill =>
      String.eqb fill "red" && negb (F64.ltb (snd xy) F64.zero)
      && overlays_styled dst
  | _ => true
  end.

Definition is_paragraph (f : flowable) : bool :=
  match f with Paragraph _ _ => true | _ => false end.

Definition is_PageBreak (f : flowable) : bool :=
  match f with PageBreak => true | _ => false end.

(** The images embedded in a story, in order. *)
Fixpoint story_images (elems : list flowable) : list image :=
  match elems with
  | [] => []
  | RLImage img _ _ :: rest => img :: story_images rest
  | _ :: rest => story_images rest
  end.

Definition is_text_op (op : canvas_op) : bool :=
  match op with
  | DrawRightString _ _ _ => true
  | _ => false
  end.


Definition logo_failed : exn := HTTPException 500 "Logo load failed".

(** The boxes of the rectangles drawn on an image, oldest first. *)
Fixpoint drawn_boxes (i : image) : list box :=
  match i with
  | DrawRectangle dst xy _ _ => drawn_boxes dst ++ [xy]
  | DrawText dst _ _ _ => drawn_boxes dst
  | _ => []
  end.

(** The corners the loop passes to [draw.rectangle] for an entry: those of
    the scaled box, when the entry is an object whose four fields parse and
    whose scaled width and height are positive. *)
Definition scaled_box `{Python} (sx sy : float) (ab : json) : option box :=
  match ab with
  | JObj fields =>
      let bbox := default (JObj ∅) (fields !! "bbox") in
      match scaled_field bbox "x" sx, scaled_field bbox "y" sy,
            scaled_field bbox "width" sx, scaled_field bbox "height" sy with
      | Ok x, Ok y, Ok w, Ok h =>
          if F64.ltb F64.zero w && F64.ltb F64.zero h
          then Some (x, y, F64.add x w, F64.add y h) else None
      | _, _, _, _ => None
      end
  | _ => None
  end.

(** The text of line [k] (counted from 0) of the enumerated findings. *)
Definition finding_line `{Python} (k : nat) (ab : json) : string :=
  pretty (Z.of_nat k + 1) +:+ ". " +:+ entry_name ab.

(** Further fixtures: a logo of 300 by 100 pixels on disk, and requests. *)
Module Fixture.
Definition world_with_logo : World :=
  {| logo_asset := Ok [Byte.x89];
     strftime_now fmt := fmt |}.

Definition pillow_logo : Pillow :=
  {| Image_open content :=
       match content with
       | [] => Raise UnidentifiedImageError
       | _ => Ok (300, 100)
       end;
     Image_load _ := Ok tt;
     ImageDraw_rectangle _ _ _ _ := Ok tt;
     ImageDraw_text _ _ _ _ := Ok tt |}.

Definition jpg_request : request :=
  {| upload := {| filename := "scan.jpg"; file := [Byte.xff] |};
     form := ∅; isAbnormal := None; abnormalities := None |}.

Definition bad_list_request : request :=
  {| upload := {| filename := "scan.png"; file := [] |};
     form := ∅; isAbnormal := None; abnormalities := Some "{}" |}.


(** Two DICOM streams with the same three samples, flagged and not. *)
Definition flagged_stream : bytes := [Byte.x01; Byte.x00; Byte.x80; Byte.xff].
Definition plain_stream : bytes := [Byte.x02; Byte.x00; Byte.x80; Byte.xff].

(** An entry whose name is markup that reportlab refuses. *)
Definition markup_entry : json := JObj (<["name" := JStr "<b>x"]> ∅).

(** The text of a list with the sample nodule, and a reader that knows it. *)
Definition quoted (s : string) : string :=
  String (Ascii.ascii_of_nat 34) (s +:+ String (Ascii.ascii_of_nat 34) "").
Definition nodule_text : string :=
  "[{" +:+ quoted "name" +:+ ": " +:+ quoted "Nodule" +:+ ", " +:+
  quoted "bbox" +:+ ": {" +:+ quoted "x" +:+ ": 100, " +:+ quoted "y" +:+
  ": 50, " +:+ quoted "width" +:+ ": 40, " +:+ quoted "height" +:+ ": 30}}]".
Definition python_reader : Python :=
  {| json_loads s :=
       if String.eqb s nodule_text then Ok (JArr [Sample.nodule])
       else @json_loads Sample.python s;
     float_of_str := @float_of_str Sample.python;
     py_str := @py_str Sample.python |}.
Definition nodule_request : request :=
  {| upload := Sample.png_upload; form := ∅; isAbnormal := Some true;
     abnormalities := Some nodule_text |}.

Definition named_request : request :=
  {| upload := Sample.png_upload;
     form := <["patientName" := "Ada"]> (<["hospital" := "General"]> ∅);
     isAbnormal := Some true; abnormalities := None |}.
End Fixture.

(** * Properties *)

(** ** Binary64 facts used below *)

Lemma F64_div_diag s m e :
  F64.div (S754_finite s m e) (S754_finite s m e) = F64.one.
Proof.
  unfold F64.div, SFdiv, SFdiv_core_binary.
  rewrite !Z.sub_diag.
  change (Z.min (fexp F64.prec F64.emax 0) 0) with (-53).
  change (0 - -53) with 53.
  cbv beta iota zeta.
  assert (Hq : Z.div_eucl (Z.shiftl (Z.pos m) 53) (Z.pos m)
               = (9007199254740992, 0)).
  { rewrite Z.shiftl_mul_pow2 by lia.
    pose proof (Z.div_eucl_eq (Z.pos m * 2 ^ 53) (Z.pos m) ltac:(lia)) as He.
    pose proof (Z.mod_pos_bound (Z.pos m * 2 ^ 53) (Z.pos m) ltac:(lia)) as Hb.
    unfold Z.modulo in Hb.
    destruct (Z.div_eucl (Z.pos m * 2 ^ 53) (Z.pos m)) as [q r].
    assert (Hr : Z.pos m * (2 ^ 53 - q) = r) by lia.
    assert (Hz : 2 ^ 53 - q = 0) by nia.
    rewrite Hz in Hr. f_equal; lia. }
  rewrite Hq.
  destruct s; cbn [xorb]; unfold new_location;
    destruct (Z.even (Z.pos m)); reflexivity.
Qed.

Lemma F64_sub_diag s m e :
  F64.sub (S754_finite s m e) (S754_finite s m e) = F64.zero.
Proof.
  unfold F64.sub, SFsub. rewrite Z.min_id. unfold shl_align.
  rewrite !Z.sub_diag. reflexivity.
Qed.

(** Whatever the value, [(x - x) / (x - x)] is NaN. *)
Lemma F64_flat_quotient (x : float) :
  F64.div (F64.sub x x) (F64.sub x x) = F64.nan.
Proof.
  destruct x as [s|s| |s m e].
  - destruct s; reflexivity.
  - destruct s; reflexivity.
  - reflexivity.
  - rewrite F64_sub_diag. reflexivity.
Qed.

Lemma wrap_0 dt : wrap dt 0 = 0.
Proof.
  unfold wrap. set (m := 2 ^ dt_bits dt).
  assert (0 <= m) by (apply Z.pow_nonneg; lia).
  destruct (dt_signed dt).
  - destruct (Z.eq_dec m 0) as [->|Hm]; [reflexivity|].
    rewrite Z.add_0_l, Z.mod_small; [lia|].
    split; [apply Z.div_pos; lia | apply Z.div_lt; lia].
  - apply Zmod_0_l.
Qed.

Lemma amin_replicate v n : Np.amin v (replicate n v) = v.
Proof.
  unfold Np.amin. induction n as [|n IH]; simpl; [reflexivity|].
  rewrite Z.min_id. exact IH.
Qed.

Lemma amax_replicate v n : Np.amax v (replicate n v) = v.
Proof.
  unfold Np.amax. induction n as [|n IH]; simpl; [reflexivity|].
  rewrite Z.max_id. exact IH.
Qed.

Lemma fmin2_diag x : Np.fmin2 x x = x.
Proof. unfold Np.fmin2. destruct (F64.is_nan x), (F64.ltb x x); reflexivity. Qed.

Lemma fmax2_diag x : Np.fmax2 x x = x.
Proof. unfold Np.fmax2. destruct (F64.is_nan x), (F64.ltb x x); reflexivity. Qed.

Lemma famin_replicate x n : Np.famin x (replicate n x) = x.
Proof.
  unfold Np.famin. induction n as [|n IH]; simpl; [reflexivity|].
  rewrite fmin2_diag. exact IH.
Qed.

Lemma famax_replicate x n : Np.famax x (replicate n x) = x.
Proof.
  unfold Np.famax. induction n as [|n IH]; simpl; [reflexivity|].
  rewrite fmax2_diag. exact IH.
Qed.

Lemma map_replicate {A B} (f : A -> B) n x :
  map f (replicate n x) = replicate n (f x).
Proof. induction n; simpl; congruence. Qed.

(** ** The intensity normaliser on a flat buffer *)

Lemma rescale_flat_ints dt v n :
  Np.rescale (Ints dt (replicate (S n) v)) = Ok (replicate (S n) F64.nan).
Proof.
  cbn [replicate Np.rescale].
  rewrite amin_replicate, amax_replicate.
  change (v :: replicate n v) with (replicate (S n) v).
  rewrite map_replicate, !Z.sub_diag, wrap_0. reflexivity.
Qed.

Lemma rescale_flat_floats x n :
  Np.rescale (Floats (replicate (S n) x)) = Ok (replicate (S n) F64.nan).
Proof.
  cbn [replicate Np.rescale].
  rewrite famin_replicate, famax_replicate.
  change (x :: replicate n x) with (replicate (S n) x).
  rewrite map_replicate, F64_flat_quotient. reflexivity.
Qed.

(** C1 (the code departs from the claim).  On every flat buffer, of any
    integer dtype or of floats, [max - min] is zero and the rescale divides
    zero by zero: each rescaled sample is NaN.  No guard replaces the
    quotient, and the 8-bit output is whatever the host's conversion makes
    of a NaN. *)
Theorem C1_flat_buffer_divides_by_zero `{Numpy} (n : nat) :
  (forall dt v,
      Np.rescale (Ints dt (replicate (S n) v)) = Ok (replicate (S n) F64.nan) /\
      normalize_pixels (Ints dt (replicate (S n) v)) (Some "MONOCHROME2")
      = Ok (replicate (S n) (cast_unrepresentable F64.nan mod 256))) /\
  (forall x,
      Np.rescale (Floats (replicate (S n) x)) = Ok (replicate (S n) F64.nan) /\
      normalize_pixels (Floats (replicate (S n) x)) (Some "MONOCHROME2")
      = Ok (replicate (S n) (cast_unrepresentable F64.nan mod 256))).
Proof.
  split; intros; (split; [auto using rescale_flat_ints, rescale_flat_floats|]).
  - unfold normalize_pixels. rewrite rescale_flat_ints.
    rewrite map_replicate. reflexivity.
  - unfold normalize_pixels. rewrite rescale_flat_floats.
    rewrite map_replicate. reflexivity.
Qed.

(** ** Polarity correction *)

Lemma invert_is_complement v : 0 <= v <= 255 -> Np.invert v = 255 - v.
Proof.
  intros Hv. unfold Np.invert, Z.lnot.
  change 255 with (Z.ones 8) at 1. rewrite Z.land_ones by lia.
  replace (Z.pred (- v)) with ((255 - v) + (-1) * 2 ^ 8) by lia.
  rewrite Z_mod_plus_full. apply Z.mod_small. lia.
Qed.

Lemma astype_uint8_range `{Numpy} x : 0 <= Np.astype_uint8 x <= 255.
Proof.
  unfold Np.astype_uint8.
  pose proof (Z.mod_pos_bound (cast_unrepresentable x) 256 ltac:(lia)).
  destruct (F64.trunc x) as [v|]; [|lia].
  destruct (0 <=? v) eqn:Hlo; destruct (v <=? 255) eqn:Hhi; simpl; lia.
Qed.

Lemma map_invert_complement (px : list Z) :
  Forall (fun v => 0 <= v <= 255) px ->
  map Np.invert px = map (fun v => 255 - v) px.
Proof.
  induction 1 as [|v px Hv _ IH]; simpl; [reflexivity|].
  rewrite invert_is_complement, IH by assumption. reflexivity.
Qed.

(** On the array steps alone: the flagged output is the unflagged output
    with every sample [v] replaced by [255 - v]. *)
Lemma normalize_pixels_polarity `{Numpy}
    (a : samples) (p : string) (px : list Z) :
  p <> "MONOCHROME1" ->
  normalize_pixels a (Some p) = Ok px ->
  (exists scaled, Np.rescale a = Ok scaled /\
                  px = map Np.astype_uint8 scaled) /\
  normalize_pixels a (Some "MONOCHROME1") = Ok (map (fun v => 255 - v) px) /\
  forall px1 i j u v u1 v1,
    normalize_pixels a (Some "MONOCHROME1") = Ok px1 ->
    px !! i = Some u -> px !! j = Some v ->
    px1 !! i = Some u1 -> px1 !! j = Some v1 ->
    u1 = 255 - u /\ v1 = 255 - v /\ (u < v <-> v1 < u1) /\ (u = v <-> u1 = v1).
Proof.
  intros Hp Hn. unfold normalize_pixels in *.
  destruct (Np.rescale a) as [scaled|e]; [|discriminate].
  assert (Hne : String.eqb p "MONOCHROME1" = false)
    by (apply String.eqb_neq; exact Hp).
  rewrite Hne in Hn. injection Hn as <-.
  assert (Hr : Forall (fun v => 0 <= v <= 255) (map Np.astype_uint8 scaled)).
  { clear. induction scaled; constructor; auto using astype_uint8_range. }
  change (String.eqb "MONOCHROME1" "MONOCHROME1") with true. cbv iota.
  rewrite (map_invert_complement _ Hr).
  split; [eauto|]. split; [reflexivity|].
  intros px1 i j u v u1 v1 [= <-] Hi Hj Hi1 Hj1.
  rewrite list_lookup_fmap, Hi in Hi1. rewrite list_lookup_fmap, Hj in Hj1.
  simpl in Hi1, Hj1. injection Hi1 as <-. injection Hj1 as <-. lia.
Qed.

(** ** Integers as floats *)

Lemma digits2_pos_size p : digits2_pos p = Pos.size p.
Proof. induction p; simpl; congruence. Qed.

Lemma digits2_pos_iter p k :
  Z.pos (digits2_pos (Pos.iter xO p k)) = Z.pos (digits2_pos p) + Z.pos k.
Proof.
  induction k using Pos.peano_ind.
  - simpl. lia.
  - rewrite Pos.iter_succ. simpl digits2_pos. lia.
Qed.

Lemma digits2_pos_bound p : Z.pos p < 2 ^ 53 -> Z.pos (digits2_pos p) <= 53.
Proof.
  intros Hp. rewrite digits2_pos_size.
  pose proof (Pos.size_le p) as Hs.
  apply Pos2Z.pos_le_pos in Hs. rewrite Pos2Z.inj_pow in Hs.
  change (Z.pos 2) with 2 in Hs. change (Z.pos p~0) with (2 * Z.pos p) in Hs.
  assert (Hlt : 2 ^ Z.pos (Pos.size p) < 2 ^ 54)
    by (change (2 ^ 54) with (2 * 2 ^ 53); lia).
  apply Z.pow_lt_mono_r_iff in Hlt; lia.
Qed.

Lemma binary_round_aux_normal s mz ez :
  Z.pos (digits2_pos mz) = 53 -> -1074 <= ez <= 971 ->
  binary_round_aux F64.prec F64.emax s (Z.pos mz) ez loc_Exact
  = S754_finite s mz ez.
Proof.
  intros Hd He.
  assert (Hshift : fexp F64.prec F64.emax (Zdigits2 (Z.pos mz) + ez) - ez = 0).
  { unfold fexp, emin, F64.prec, F64.emax, Zdigits2. rewrite Hd. lia. }
  unfold binary_round_aux, shr_fexp. cbn [shr_record_of_loc].
  rewrite Hshift. cbn [shr shr_m loc_of_shr_record round_nearest_even].
  cbn [shr_record_of_loc]. rewrite Hshift. cbn [shr shr_m].
  assert (Hle : (ez <=? F64.emax - F64.prec) = true)
    by (apply Z.leb_le; unfold F64.emax, F64.prec; lia).
  rewrite Hle. reflexivity.
Qed.

Lemma binary_round_small s p :
  Z.pos p < 2 ^ 53 ->
  exists m e, binary_round F64.prec F64.emax s p 0 = S754_finite s m e.
Proof.
  intros Hp. pose proof (digits2_pos_bound p Hp) as Hd.
  unfold binary_round.
  assert (Hf : fexp F64.prec F64.emax (Z.pos (digits2_pos p) + 0)
               = Z.pos (digits2_pos p) - 53).
  { unfold fexp, emin, F64.prec, F64.emax. lia. }
  rewrite Hf. unfold shl_align. rewrite Z.sub_0_r.
  destruct (Z.pos (digits2_pos p) - 53) as [|k|k] eqn:Hk; try lia.
  - eexists _, _. apply binary_round_aux_normal; lia.
  - eexists _, _. apply binary_round_aux_normal.
    + rewrite digits2_pos_iter. lia.
    + lia.
Qed.

Lemma of_Z_finite n :
  n <> 0 -> Z.abs n < 2 ^ 53 ->
  exists s m e, F64.of_Z n = S754_finite s m e.
Proof.
  intros Hn Hb. unfold F64.of_Z, binary_normalize.
  destruct n as [|p|p]; [congruence| |].
  - destruct (binary_round_small false p Hb) as (m & e & ->). eauto.
  - destruct (binary_round_small true p Hb) as (m & e & ->). eauto.
Qed.

Lemma amin_elem v tl : Np.amin v tl ∈ v :: tl.
Proof.
  unfold Np.amin. revert v. induction tl as [|a tl IH]; intros v; simpl.
  - apply elem_of_cons. left. reflexivity.
  - specialize (IH (Z.min v a)). apply elem_of_cons in IH as [Heq|Hin].
    + rewrite Heq. destruct (Z.min_spec v a) as [[_ ->]|[_ ->]];
        rewrite !elem_of_cons; auto.
    + rewrite !elem_of_cons. auto.
Qed.

Lemma amax_elem v tl : Np.amax v tl ∈ v :: tl.
Proof.
  unfold Np.amax. revert v. induction tl as [|a tl IH]; intros v; simpl.
  - apply elem_of_cons. left. reflexivity.
  - specialize (IH (Z.max v a)). apply elem_of_cons in IH as [Heq|Hin].
    + rewrite Heq. destruct (Z.max_spec v a) as [[_ ->]|[_ ->]];
        rewrite !elem_of_cons; auto.
    + rewrite !elem_of_cons. auto.
Qed.

(** On a buffer of integers whose range [max - min] is not zero (and fits
    the 53 bits of a float), the darkest sample becomes 0 and the brightest
    255, and every output sample lies between them. *)
Lemma normalize_range_nondegenerate `{Numpy} dt v tl :
  let mn := Np.amin v tl in
  let mx := Np.amax v tl in
  wrap dt (mx - mn) <> 0 -> Z.abs (wrap dt (mx - mn)) < 2 ^ 53 ->
  exists px,
    normalize_pixels (Ints dt (v :: tl)) (Some "MONOCHROME2") = Ok px /\
    Forall (fun q => 0 <= q <= 255) px /\
    (forall i, (v :: tl) !! i = Some mn -> px !! i = Some 0) /\
    (forall i, (v :: tl) !! i = Some mx -> px !! i = Some 255) /\
    0 ∈ px /\ 255 ∈ px.
Proof.
  intros mn mx Hnz Hb.
  destruct (of_Z_finite _ Hnz Hb) as (s & m & e & Hr).
  unfold normalize_pixels. cbn [Np.rescale]. fold mn mx. rewrite Hr.
  change (String.eqb "MONOCHROME2" "MONOCHROME1") with false. cbv iota.
  eexists. split; [reflexivity|].
  assert (Hmin : forall i, (v :: tl) !! i = Some mn ->
            map Np.astype_uint8
              (map (fun p => F64.mul (F64.div (F64.of_Z (wrap dt (p - mn)))
                                        (S754_finite s m e)) (F64.of_Z 255))
                 (v :: tl)) !! i = Some 0).
  { intros i Hi. rewrite !list_lookup_fmap, Hi. cbn [fmap option_fmap option_map].
    rewrite Z.sub_diag, wrap_0. destruct s; reflexivity. }
  assert (Hmax : forall i, (v :: tl) !! i = Some mx ->
            map Np.astype_uint8
              (map (fun p => F64.mul (F64.div (F64.of_Z (wrap dt (p - mn)))
                                        (S754_finite s m e)) (F64.of_Z 255))
                 (v :: tl)) !! i = Some 255).
  { intros i Hi. rewrite !list_lookup_fmap, Hi. cbn [fmap option_fmap option_map].
    rewrite Hr, F64_div_diag. reflexivity. }
  split.
  { clear. induction (map _ (v :: tl)); constructor;
      auto using astype_uint8_range. }
  split; [exact Hmin|]. split; [exact Hmax|]. split.
  - destruct (proj1 (list_elem_of_lookup _ _) (amin_elem v tl)) as [i Hi].
    apply list_elem_of_lookup. exists i. apply Hmin, Hi.
  - destruct (proj1 (list_elem_of_lookup _ _) (amax_elem v tl)) as [i Hi].
    apply list_elem_of_lookup. exists i. apply Hmax, Hi.
Qed.

(** The output for a flat buffer is the host's: on the same DICOM stream,
    whose three samples are all 7, two hosts that convert NaN differently
    build different images. *)
Lemma flat_output_depends_on_host :
  @process_dicom Sample.pydicom Sample.numpy
    [Byte.x02; Byte.x07; Byte.x07; Byte.x07] ∅
  = Ok (0%nat, {[ 0%nat := FromArray 1 3 [0; 0; 0] ]}) /\
  @process_dicom Sample.pydicom Sample.numpy'
    [Byte.x02; Byte.x07; Byte.x07; Byte.x07] ∅
  = Ok (0%nat, {[ 0%nat := FromArray 1 3 [128; 128; 128] ]}).
Proof. split; vm_compute; reflexivity. Qed.

(** ** Findings *)

Lemma new_paragraph_Ok `{Reportlab} text style p :
  new_paragraph text style = Ok p <->
  Paragraph_parse text = Ok tt /\ p = Paragraph text style.
Proof.
  unfold new_paragraph. destruct (Paragraph_parse text) as [[]|e]; split;
    try (intros [= <-]; auto); try (intros [_ ->]; reflexivity);
    try discriminate; intros [Hp _]; discriminate.
Qed.

Lemma new_paragraph_Raise `{Reportlab} text style e :
  new_paragraph text style = Raise e <-> Paragraph_parse text = Raise e.
Proof.
  unfold new_paragraph. destruct (Paragraph_parse text) as [[]|e']; split;
    congruence.
Qed.

(** What a successful enumeration holds. *)
Lemma enumerated_Ok `{Python} `{Reportlab} (ab_list : list json) :
  forall i ps,
    enumerated i ab_list = Ok ps ->
    Forall (fun ab => is_dict ab = true) ab_list /\
    length ps = length ab_list /\
    forall (k : nat) ab, ab_list !! k = Some ab ->
      ps !! k = Some (Paragraph (pretty (i + Z.of_nat k) +:+ ". " +:+ entry_name ab)
                                CustomNormal) /\
      Paragraph_parse (pretty (i + Z.of_nat k) +:+ ". " +:+ entry_name ab)
      = Ok tt.
Proof.
  induction ab_list as [|ab rest IH]; intros i ps Hps.
  - injection Hps as <-. split; [constructor|]. split; [reflexivity|].
    intros k ab Hk. discriminate.
  - cbn [enumerated] in Hps.
    destruct ab as [| | | | | |fields]; cbn [dict_get] in Hps;
      try discriminate.
    destruct (new_paragraph _ CustomNormal) as [p|] eqn:Hp; [|discriminate].
    apply new_paragraph_Ok in Hp as [Hparse ->].
    destruct (enumerated (i + 1) rest) as [ps'|] eqn:Hrest; [|discriminate].
    injection Hps as <-. destruct (IH _ _ Hrest) as (Hd & Hlen & Hk).
    split; [constructor; auto|]. split; [simpl; congruence|].
    intros [|k] ab Hl; simpl in Hl |- *.
    + injection Hl as <-. rewrite Z.add_0_r. auto.
    + destruct (Hk k ab Hl) as [Hps Hpa].
      replace (i + Z.of_nat (S k)) with (i + 1 + Z.of_nat k) by lia.
      auto.
Qed.

(** The enumeration succeeds when every entry is an object and reportlab
    accepts every line. *)
Lemma enumerated_accepted `{Python} `{Reportlab} (ab_list : list json) :
  Forall (fun ab => is_dict ab = true) ab_list ->
  forall i,
    (forall (k : nat) ab, ab_list !! k = Some ab ->
       Paragraph_parse (pretty (i + Z.of_nat k) +:+ ". " +:+ entry_name ab)
       = Ok tt) ->
    exists ps, enumerated i ab_list = Ok ps.
Proof.
  induction 1 as [|ab rest Hab _ IH]; intros i Hacc; [exists []; reflexivity|].
  destruct ab as [| | | | | |fields]; try discriminate.
  cbn [enumerated dict_get].
  pose proof (Hacc 0%nat _ eq_refl) as Hhd. rewrite Z.add_0_r in Hhd.
  cbn [entry_name] in Hhd. unfold new_paragraph. rewrite Hhd.
  destruct (IH (i + 1)) as [ps Hps].
  { intros k ab Hk. specialize (Hacc (S k) ab Hk).
    replace (i + 1 + Z.of_nat k) with (i + Z.of_nat (S k)) by lia. exact Hacc. }
  rewrite Hps. eauto.
Qed.

(** On a list of objects the enumeration fails only with an error of the
    markup parser on one of its lines. *)
Lemma enumerated_Raise `{Python} `{Reportlab} (ab_list : list json) :
  Forall (fun ab => is_dict ab = true) ab_list ->
  forall i e, enumerated i ab_list = Raise e ->
    exists (k : nat) ab,
      ab_list !! k = Some ab /\
      Paragraph_parse (pretty (i + Z.of_nat k) +:+ ". " +:+ entry_name ab)
      = Raise e.
Proof.
  induction 1 as [|ab rest Hab _ IH]; intros i e He; [discriminate|].
  destruct ab as [| | | | | |fields]; try discriminate.
  cbn [enumerated dict_get] in He.
  destruct (new_paragraph _ CustomNormal) as [p|e'] eqn:Hp.
  - destruct (enumerated (i + 1) rest) as [ps|e''] eqn:Hrest; [discriminate|].
    injection He as <-. destruct (IH _ _ Hrest) as (k & ab & Hk & Hparse).
    exists (S k), ab. split; [exact Hk|].
    replace (i + Z.of_nat (S k)) with (i + 1 + Z.of_nat k) by lia.
    exact Hparse.
  - injection He as <-. apply new_paragraph_Raise in Hp.
    exists 0%nat, (JObj fields). split; [reflexivity|].
    rewrite Z.add_0_r. exact Hp.
Qed.



(** ** Patient details *)

Lemma det_get_absent (det : gmap string string) key :
  det !! key = None -> det_get det key = "N/A".
Proof. unfold det_get. intros ->. reflexivity. Qed.

Lemma det_get_present (det : gmap string string) key v :
  det !! key = Some v -> det_get det key = v.
Proof. unfold det_get. intros ->. reflexivity. Qed.

Lemma details_lookup (req : request) label key :
  (label, key) ∈ detail_fields ->
  details req !! key = Some (form_field req key).
Proof.
  unfold detail_fields. rewrite !elem_of_cons, elem_of_nil.
  intros H. repeat (destruct H as [[= -> ->]|H]); try (destruct H);
    unfold details; by simplify_map_eq.
Qed.

Lemma rows_of_details (req : request) :
  left_rows (details req) ++ right_rows (details req)
  = map (fun f => (fst f, form_field req (snd f))) detail_fields.
Proof.
  unfold left_rows, right_rows, detail_fields. cbn [map app fst snd].
  repeat (f_equal; [f_equal; apply det_get_present;
                    eapply details_lookup; unfold detail_fields;
                    rewrite !elem_of_cons; eauto 12|]).
  reflexivity.
Qed.

(** C7 (the code departs from the claim).  [create_report] puts all ten
    patient keys into [det], with the empty string for a field the request
    does not carry: the row of such a field shows the empty string, and the
    default "N/A" of [det.get] never applies. *)
Theorem C7_absent_field_renders_empty (req : request) label key :
  (label, key) ∈ detail_fields ->
  form req !! key = None ->
  details req !! key = Some "" /\
  det_get (details req) key = "" /\
  (label, "") ∈ left_rows (details req) ++ right_rows (details req) /\
  (label, "N/A") ∉ left_rows (details req) ++ right_rows (details req).
Proof.
  intros Hin Habs.
  assert (Hf : form_field req key = "") by (unfold form_field; rewrite Habs; done).
  pose proof (details_lookup req label key Hin) as Hl. rewrite Hf in Hl.
  split; [exact Hl|]. split; [exact (det_get_present _ _ _ Hl)|].
  rewrite rows_of_details. split.
  - apply list_elem_of_fmap. exists (label, key). simpl. rewrite Hf. done.
  - intros Hna. apply list_elem_of_fmap in Hna as ([l k] & [= -> Hv] & Hk).
    simpl in *. revert Hin Hk Hv Hf. unfold detail_fields.
    rewrite !elem_of_cons, !elem_of_nil. unfold form_field.
    intros Hin Hk Hv Hf.
    repeat (destruct Hk as [[= -> ->]|Hk]);
      try (destruct Hk);
      repeat (destruct Hin as [[= ->]|Hin]); try (destruct Hin);
      rewrite Habs in Hv; discriminate.
Qed.

(** Witness: a request with no form field at all. *)
Lemma C7_absent_field_witness :
  det_get (details Sample.empty_request) "patientName" = "".
Proof.
  refine (proj1 (proj2 (C7_absent_field_renders_empty Sample.empty_request
            "Name:" "patientName" _ _))).
  - unfold detail_fields. apply elem_of_cons. left. reflexivity.
  - reflexivity.
Defined.

(** ** Reasoning about store computations *)

Lemma bind_Ok {A B} (c : M A) (k : A -> M B) h r :
  bind c k h = Ok r -> exists a h1, c h = Ok (a, h1) /\ k a h1 = Ok r.
Proof.
  unfold bind. destruct (c h) as [[a h1]|e]; [eauto|discriminate].
Qed.

Lemma bind_Raise {A B} (c : M A) (k : A -> M B) h e :
  c h = Raise e -> bind c k h = Raise e.
Proof. unfold bind. intros ->. reflexivity. Qed.

Lemma bind_step {A B} (c : M A) (k : A -> M B) h a h1 :
  c h = Ok (a, h1) -> bind c k h = k a h1.
Proof. unfold bind. intros ->. reflexivity. Qed.

Lemma lift_Ok {A} (r : result A) h a h1 :
  lift r h = Ok (a, h1) -> r = Ok a /\ h1 = h.
Proof. unfold lift. destruct r; intros [= <- <-] || discriminate. auto. Qed.

Lemma ret_Ok {A} (a : A) h b h1 : ret a h = Ok (b, h1) -> b = a /\ h1 = h.
Proof. unfold ret. intros [= <- <-]. auto. Qed.

Lemma deref_Ok l h i h1 :
  deref l h = Ok (i, h1) -> h !! l = Some i /\ h1 = h.
Proof.
  unfold deref. destruct (h !! l); intros [= <- <-] || discriminate. auto.
Qed.

Lemma alloc_Ok i h l h1 :
  alloc i h = Ok (l, h1) ->
  l = fresh (dom h) /\ h !! l = None /\ h1 = <[l := i]> h.
Proof.
  unfold alloc. intros [= <- <-]. repeat split.
  apply not_elem_of_dom, is_fresh.
Qed.

#[local] Ltac inv_store :=
  repeat match goal with
    | H : bind _ _ _ = Ok _ |- _ =>
        let a := fresh "a" in let h := fresh "h" in
        apply bind_Ok in H as (a & h & ? & H)
    | H : lift _ _ = Ok _ |- _ => apply lift_Ok in H as [? ?]
    | H : ret _ _ = Ok _ |- _ => apply ret_Ok in H as [? ?]
    | H : deref _ _ = Ok _ |- _ => apply deref_Ok in H as [? ?]
    | H : alloc _ _ = Ok _ |- _ => apply alloc_Ok in H as (? & ? & ?)
    end.

Lemma draw_rectangle_Ok `{Pillow} l xy o w h u h1 :
  draw_rectangle l xy o w h = Ok (u, h1) ->
  exists i, h !! l = Some i /\ ImageDraw_rectangle i xy o w = Ok tt /\
            h1 = <[l := DrawRectangle i xy o w]> h.
Proof.
  unfold draw_rectangle, store. intros Hd.
  apply bind_Ok in Hd as (i & h2 & Hi & Hd). apply deref_Ok in Hi as [Hi ->].
  apply bind_Ok in Hd as ([] & h3 & Hc & Hd). apply lift_Ok in Hc as [Hc ->].
  injection Hd as _ <-. eauto.
Qed.

Lemma draw_text_Ok `{Pillow} l xy t fill h u h1 :
  draw_text l xy t fill h = Ok (u, h1) ->
  exists i s, t = JStr s /\ h !! l = Some i /\
              ImageDraw_text i xy s fill = Ok tt /\
              h1 = <[l := DrawText i xy s fill]> h.
Proof.
  unfold draw_text, store. destruct t; try discriminate. intros Hd.
  apply bind_Ok in Hd as (i & h2 & Hi & Hd). apply deref_Ok in Hi as [Hi ->].
  apply bind_Ok in Hd as ([] & h3 & Hc & Hd). apply lift_Ok in Hc as [Hc ->].
  injection Hd as _ <-. eauto 6.
Qed.

(** ** The body of the annotation loop *)

Lemma py_max0_not_negative a : F64.ltb (py_max0 a) F64.zero = false.
Proof.
  unfold py_max0. destruct (F64.ltb a F64.zero) eqn:Ha; [reflexivity|exact Ha].
Qed.

Lemma annotate_entry_not_dict `{Pillow} `{Python} sx sy la ab h :
  is_dict ab = false -> annotate_entry sx sy la ab h = Raise AttributeError.
Proof. destruct ab; try reflexivity. discriminate. Qed.

(** What the loop body does on an entry that is an object. *)
Lemma annotate_entry_run `{Pillow} `{Python} sx sy la
    (fields : gmap string json) h :
  annotate_entry sx sy la (JObj fields) h =
  let bbox := default (JObj ∅) (fields !! "bbox") in
  let label := default (JStr "") (fields !! "name") in
  match scaled_field bbox "x" sx, scaled_field bbox "y" sy,
        scaled_field bbox "width" sx, scaled_field bbox "height" sy with
  | Ok x, Ok y, Ok w, Ok ht =>
      if F64.ltb F64.zero w && F64.ltb F64.zero ht then
        match h !! la with
        | None => Raise InvalidAnnotationError
        | Some i =>
            let xy := (x, y, F64.add x w, F64.add y ht) in
            let rect := DrawRectangle i xy "red" 3 in
            let anchor := (x, py_max0 (F64.sub y (F64.of_Z 14))) in
            match ImageDraw_rectangle i xy "red" 3 with
            | Raise _ => Raise InvalidAnnotationError
            | Ok _ =>
                if truthy label then
                  match label with
                  | JStr t =>
                      match ImageDraw_text rect anchor t "red" with
                      | Raise _ => Raise InvalidAnnotationError
                      | Ok _ => Ok (tt, <[la := DrawText rect anchor t "red"]> h)
                      end
                  | _ => Raise InvalidAnnotationError
                  end
                else Ok (tt, <[la := rect]> h)
            end
        end
      else Ok (tt, h)
  | _, _, _, _ => Raise InvalidAnnotationError
  end.
Proof.
  unfold annotate_entry, InvalidAnnotationError. cbn [dict_get].
  unfold bind at 1. cbn [lift]. unfold bind at 1. cbn [lift].
  cbv zeta. unfold try_except.
  destruct (scaled_field _ "x" sx) as [x|e]; [|reflexivity].
  unfold bind at 1. cbn [lift].
  destruct (scaled_field _ "y" sy) as [y|e]; [|reflexivity].
  unfold bind at 1. cbn [lift].
  destruct (scaled_field _ "width" sx) as [w|e]; [|reflexivity].
  unfold bind at 1. cbn [lift].
  destruct (scaled_field _ "height" sy) as [ht|e]; [|reflexivity].
  unfold bind at 1. cbn [lift].
  destruct (F64.ltb F64.zero w && F64.ltb F64.zero ht); [|reflexivity].
  unfold bind, draw_rectangle, draw_text, deref, store, bind, lift, ret.
  destruct (h !! la) as [i|]; [|reflexivity].
  destruct (ImageDraw_rectangle i _ "red" 3) as [[]|e]; [|reflexivity].
  destruct (truthy _); [|reflexivity].
  destruct (default _ _); try reflexivity.
  rewrite lookup_insert_eq.
  destruct (ImageDraw_text _ _ _ "red") as [[]|e]; [|reflexivity].
  rewrite insert_insert_eq. reflexivity.
Qed.

#[local] Ltac split_run H :=
  repeat match type of H with
         | match ?c with _ => _ end = _ => destruct c eqn:?; try discriminate
         | (if ?c then _ else _) = _ => destruct c eqn:?; try discriminate
         end.

(** ** Frame: drawing touches the annotated image only *)

Lemma annotate_entry_frame `{Pillow} `{Python} sx sy la ab h u h1 :
  annotate_entry sx sy la ab h = Ok (u, h1) ->
  forall l, l <> la -> h1 !! l = h !! l.
Proof.
  intros Hrun l Hl. destruct (is_dict ab) eqn:Hd;
    [|rewrite annotate_entry_not_dict in Hrun by exact Hd; discriminate].
  destruct ab as [| | | | | |fields]; try discriminate.
  rewrite annotate_entry_run in Hrun. cbv zeta in Hrun.
  split_run Hrun; injection Hrun as _ <-;
    rewrite ?lookup_insert_ne by congruence; reflexivity.
Qed.

Lemma annotate_all_frame `{Pillow} `{Python} sx sy la abn :
  forall h u h1,
    annotate_all sx sy la abn h = Ok (u, h1) ->
    forall l, l <> la -> h1 !! l = h !! l.
Proof.
  induction abn as [|ab rest IH]; intros h u h1 Hrun l Hl.
  - apply ret_Ok in Hrun as [_ ->]. reflexivity.
  - cbn [annotate_all] in Hrun. apply bind_Ok in Hrun as (u' & h' & He & Hr).
    rewrite (IH _ _ _ Hr l Hl). eapply annotate_entry_frame; eauto.
Qed.

(** ** The rectangles of a run of the loop *)

Lemma annotate_entry_boxes `{Pillow} `{Python} sx sy la ab h u h1 i :
  annotate_entry sx sy la ab h = Ok (u, h1) ->
  h !! la = Some i ->
  exists i',
    h1 !! la = Some i' /\
    image_size i' = image_size i /\
    drawn_boxes i' = drawn_boxes i ++
                     match scaled_box sx sy ab with
                     | Some xy => [xy]
                     | None => []
                     end.
Proof.
  intros Hrun Hla. destruct (is_dict ab) eqn:Hd;
    [|rewrite annotate_entry_not_dict in Hrun by exact Hd; discriminate].
  destruct ab as [| | | | | |fields]; try discriminate.
  rewrite annotate_entry_run in Hrun. cbv zeta in Hrun.
  unfold scaled_box. cbv zeta.
  destruct (scaled_field _ "x" sx) as [x|]; [|discriminate].
  destruct (scaled_field _ "y" sy) as [y|]; [|discriminate].
  destruct (scaled_field _ "width" sx) as [w|]; [|discriminate].
  destruct (scaled_field _ "height" sy) as [ht|]; [|discriminate].
  destruct (F64.ltb F64.zero w && F64.ltb F64.zero ht).
  - rewrite Hla in Hrun. split_run Hrun; injection Hrun as _ <-;
      eexists; (split; [apply lookup_insert_eq|split; reflexivity]).
  - injection Hrun as _ <-. exists i. rewrite app_nil_r. auto.
Qed.

Lemma annotate_all_boxes `{Pillow} `{Python} sx sy la abn :
  forall h u h1 i,
    annotate_all sx sy la abn h = Ok (u, h1) ->
    h !! la = Some i ->
    exists i',
      h1 !! la = Some i' /\
      image_size i' = image_size i /\
      drawn_boxes i' = drawn_boxes i ++ omap (scaled_box sx sy) abn.
Proof.
  induction abn as [|ab rest IH]; intros h u h1 i Hrun Hla.
  - apply ret_Ok in Hrun as [_ ->]. exists i. rewrite app_nil_r. auto.
  - cbn [annotate_all] in Hrun. apply bind_Ok in Hrun as (u' & h' & He & Hr).
    destruct (annotate_entry_boxes _ _ _ _ _ _ _ _ He Hla)
      as (j & Hj & Hsj & Hbj).
    destruct (IH _ _ _ _ Hr Hj) as (i' & Hi' & Hs & Hb). exists i'.
    split; [exact Hi'|]. split; [congruence|].
    rewrite Hb, Hbj. cbn [omap list_omap].
    destruct (scaled_box sx sy ab); rewrite <- app_assoc; reflexivity.
Qed.

(** ** [process_dicom] step by step *)

Lemma process_dicom_Ok `{Pydicom} `{Numpy} content h l h1 :
  process_dicom content h = Ok (l, h1) ->
  exists ds raw arr px,
    dcmread content = Ok ds /\
    ds_pixel_array ds = Ok raw /\
    apply_voi_lut raw ds = Ok arr /\
    normalize_pixels (nd_data arr) (ds_PhotometricInterpretation ds) = Ok px /\
    l = fresh (dom h) /\
    h !! l = None /\
    h1 = <[l := FromArray (nd_rows arr) (nd_cols arr) px]> h.
Proof.
  unfold process_dicom, try_except. intros Hrun.
  match type of Hrun with
  | match ?c with _ => _ end = _ => destruct c as [[l' h']|e] eqn:Hbody
  end; [|destruct e; discriminate].
  injection Hrun as -> ->.
  apply bind_Ok in Hbody as (ds & h2 & Hds & Hbody).
  apply lift_Ok in Hds as [Hds ->].
  apply bind_Ok in Hbody as (raw & h2 & Hraw & Hbody).
  apply lift_Ok in Hraw as [Hraw ->].
  apply bind_Ok in Hbody as (arr & h2 & Harr & Hbody).
  apply lift_Ok in Harr as [Harr ->].
  apply bind_Ok in Hbody as (px & h2 & Hpx & Hbody).
  apply lift_Ok in Hpx as [Hpx ->].
  apply alloc_Ok in Hbody as (-> & Hfresh & ->).
  exists ds, raw, arr, px. auto 10.
Qed.

Lemma process_dicom_decoded `{Pydicom} `{Numpy} content h ds raw arr px :
  dcmread content = Ok ds ->
  ds_pixel_array ds = Ok raw ->
  apply_voi_lut raw ds = Ok arr ->
  normalize_pixels (nd_data arr) (ds_PhotometricInterpretation ds) = Ok px ->
  process_dicom content h
  = Ok (fresh (dom h),
        <[fresh (dom h) := FromArray (nd_rows arr) (nd_cols arr) px]> h).
Proof.
  intros Hds Hraw Harr Hpx.
  unfold process_dicom, try_except, bind, lift, alloc.
  rewrite Hds, Hraw, Harr, Hpx. reflexivity.
Qed.

(** C5.  Of two DICOM files that decode to the same pixel array, one
    flagged MONOCHROME1 and the other not, [process_dicom] builds images of
    the same shape at the same place: the unflagged one holds the samples
    rescaled to 0..255 and converted to 8 bits, the flagged one holds each
    of these samples [v] replaced by [255 - v], so the order of any two
    samples is reversed. *)
Theorem C5_polarity_inverts_rescaled_buffer `{Pydicom} `{Numpy}
    (flagged plain : bytes) (ds1 ds2 : dataset) (raw1 raw2 arr : ndarray)
    (p : string) (h : heap) (l : loc) (h0 : heap) :
  dcmread flagged = Ok ds1 ->
  dcmread plain = Ok ds2 ->
  ds_pixel_array ds1 = Ok raw1 ->
  ds_pixel_array ds2 = Ok raw2 ->
  apply_voi_lut raw1 ds1 = Ok arr ->
  apply_voi_lut raw2 ds2 = Ok arr ->
  ds_PhotometricInterpretation ds1 = Some "MONOCHROME1" ->
  ds_PhotometricInterpretation ds2 = Some p ->
  p <> "MONOCHROME1" ->
  process_dicom plain h = Ok (l, h0) ->
  exists scaled,
    Np.rescale (nd_data arr) = Ok scaled /\
    let px := map Np.astype_uint8 scaled in
    let px1 := map (fun v => 255 - v) px in
    h0 = <[l := FromArray (nd_rows arr) (nd_cols arr) px]> h /\
    process_dicom flagged h
    = Ok (l, <[l := FromArray (nd_rows arr) (nd_cols arr) px1]> h) /\
    length px1 = length px /\
    forall i j u v,
      px !! i = Some u -> px !! j = Some v ->
      px1 !! i = Some (255 - u) /\ px1 !! j = Some (255 - v) /\
      (u < v <-> 255 - v < 255 - u) /\
      (u = v <-> 255 - u = 255 - v).
Proof.
  intros Hd1 Hd2 Hr1 Hr2 Ha1 Ha2 Hp1 Hp2 Hp Hrun.
  apply process_dicom_Ok in Hrun
    as (ds & raw & arr' & px & Hds & Hraw & Harr & Hpx & Hl & _ & Hh0).
  rewrite Hd2 in Hds. injection Hds as <-.
  rewrite Hr2 in Hraw. injection Hraw as <-.
  rewrite Ha2 in Harr. injection Harr as <-.
  rewrite Hp2 in Hpx.
  destruct (normalize_pixels_polarity _ _ _ Hp Hpx)
    as ((scaled & Hscaled & ->) & Hflag & _).
  exists scaled. split; [exact Hscaled|]. cbv zeta.
  split; [exact Hh0|]. split.
  - rewrite Hl. apply (process_dicom_decoded _ _ ds1 raw1); try assumption.
    rewrite Hp1. exact Hflag.
  - split; [apply length_map|].
    intros i j u v Hi Hj.
    split; [rewrite list_lookup_fmap, Hi; reflexivity|].
    split; [rewrite list_lookup_fmap, Hj; reflexivity|]. lia.
Qed.

(** Witness: the samples 0, 128 and 255, flagged and not. *)
Lemma C5_polarity_witness :
  @process_dicom Sample.pydicom Sample.numpy Fixture.plain_stream ∅
  = Ok (0%nat, {[ 0%nat := FromArray 1 3 [0; 128; 255] ]}) /\
  @process_dicom Sample.pydicom Sample.numpy Fixture.flagged_stream ∅
  = Ok (0%nat, {[ 0%nat := FromArray 1 3 [255; 127; 0] ]}).
Proof.
  assert (Hrun : @process_dicom Sample.pydicom Sample.numpy
                   Fixture.plain_stream ∅
                 = Ok (0%nat, {[ 0%nat := FromArray 1 3 [0; 128; 255] ]}))
    by (vm_compute; reflexivity).
  split; [exact Hrun|].
  destruct (@C5_polarity_inverts_rescaled_buffer Sample.pydicom Sample.numpy
              Fixture.flagged_stream Fixture.plain_stream
              _ _ _ _ _ "MONOCHROME2" ∅ 0%nat _
              eq_refl eq_refl eq_refl eq_refl eq_refl eq_refl eq_refl eq_refl
              ltac:(discriminate) Hrun)
    as (scaled & Hs & _ & Hflag & _).
  rewrite Hflag. vm_compute in Hs. injection Hs as <-.
  vm_compute. reflexivity.
Defined.

(** ** The two canonical images *)

(** The stages of [process_image] before the loop: the decoded image, its
    resized and converted copies and the copy that will be drawn on. *)
Lemma process_image_source `{Pydicom} `{Numpy} `{Pillow} `{Python}
    f abn h lr la h1 :
  process_image f abn h = Ok ((lr, la), h1) ->
  exists img h0 src l0 sx sy,
    let ext := lower (rsplit_dot_last (filename f)) in
    let plain := Convert (Resize src (target, target)) "RGB" in
    let hr := <[lr := plain]> (<[l0 := Resize src (target, target)]> h0) in
    (if bool_decide (ext ∈ ["dcm"; "dicom"; "dic"]) then
       process_dicom (file f)
     else if String.eqb ext "png" then image_open (file f)
     else raise (HTTPException 400 "Unsupported file format")) h
    = Ok (img, h0) /\
    h0 !! img = Some src /\
    hr !! la = None /\
    lr <> la /\
    py_truediv target (fst (image_size src)) = Ok sx /\
    py_truediv target (snd (image_size src)) = Ok sy /\
    annotate_all sx sy la abn (<[la := plain]> hr) = Ok (tt, h1) /\
    forall abn' h2,
      annotate_all sx sy la abn' (<[la := plain]> hr) = Ok (tt, h2) ->
      process_image f abn' h = Ok ((lr, la), h2).
Proof.
  unfold process_image. intros Hrun.
  apply bind_Ok in Hrun as (img & h0 & Hdec & Hrun).
  apply bind_Ok in Hrun as (src & h0' & Hsrc & Hrun).
  apply deref_Ok in Hsrc as [Hsrc ->].
  apply bind_Ok in Hrun as (l0 & h2 & Hres & Hrun).
  apply bind_Ok in Hrun as (lr' & h3 & Hconv & Hrun).
  apply bind_Ok in Hrun as (la' & h4 & Hcopy & Hrun).
  apply bind_Ok in Hrun as (sx & h5 & Hsx & Hrun).
  apply lift_Ok in Hsx as [Hsx ->].
  apply bind_Ok in Hrun as (sy & h6 & Hsy & Hrun).
  apply lift_Ok in Hsy as [Hsy ->].
  apply bind_Ok in Hrun as ([] & h7 & Hann & Hrun).
  apply ret_Ok in Hrun as [[= <- <-] ->].
  (* resize *)
  pose proof Hres as Hres'. unfold img_resize in Hres.
  apply bind_Ok in Hres as (src' & h8 & Hd & Hres).
  apply deref_Ok in Hd as [Hd ->]. rewrite Hsrc in Hd. injection Hd as <-.
  apply bind_Ok in Hres as ([] & h9 & Hload & Hres).
  assert (h9 = h0) as ->.
  { destruct src; try (apply ret_Ok in Hload as [_ ->]; reflexivity).
    apply lift_Ok in Hload as [_ ->]. reflexivity. }
  apply alloc_Ok in Hres as (-> & Hfresh0 & ->).
  (* convert *)
  pose proof Hconv as Hconv'. unfold img_convert in Hconv.
  apply bind_Ok in Hconv as (r & h10 & Hd & Hconv).
  apply deref_Ok in Hd as [Hd ->]. rewrite lookup_insert_eq in Hd.
  injection Hd as <-.
  apply alloc_Ok in Hconv as (-> & Hfresh1 & ->).
  (* copy *)
  pose proof Hcopy as Hcopy'. unfold img_copy in Hcopy.
  apply bind_Ok in Hcopy as (c & h11 & Hd & Hcopy).
  apply deref_Ok in Hd as [Hd ->]. rewrite lookup_insert_eq in Hd.
  injection Hd as <-.
  apply alloc_Ok in Hcopy as (-> & Hfresh2 & ->).
  exists img, h0, src, (fresh (dom h0)), sx, sy. cbv zeta.
  split; [exact Hdec|]. split; [exact Hsrc|].
  split; [exact Hfresh2|].
  split.
  { intros Heq. rewrite <- Heq, lookup_insert_eq in Hfresh2. discriminate. }
  split; [exact Hsx|]. split; [exact Hsy|]. split; [exact Hann|].
  intros abn' h2 Hann'.
  rewrite (bind_step _ _ _ _ _ Hdec).
  rewrite (bind_step (deref img) _ h0 src h0)
    by (unfold deref; rewrite Hsrc; reflexivity).
  rewrite (bind_step _ _ _ _ _ Hres').
  rewrite (bind_step _ _ _ _ _ Hconv').
  rewrite (bind_step _ _ _ _ _ Hcopy').
  rewrite (bind_step (lift _) _ _ sx _) by (rewrite Hsx; reflexivity).
  rewrite (bind_step (lift _) _ _ sy _) by (rewrite Hsy; reflexivity).
  rewrite (bind_step _ _ _ _ _ Hann'). reflexivity.
Qed.

Lemma process_image_stages `{Pydicom} `{Numpy} `{Pillow} `{Python}
    f abn h lr la h1 :
  process_image f abn h = Ok ((lr, la), h1) ->
  exists h0 src l0 sx sy,
    let plain := Convert (Resize src (target, target)) "RGB" in
    let hr := <[lr := plain]> (<[l0 := Resize src (target, target)]> h0) in
    hr !! la = None /\
    lr <> la /\
    py_truediv target (fst (image_size src)) = Ok sx /\
    py_truediv target (snd (image_size src)) = Ok sy /\
    annotate_all sx sy la abn (<[la := plain]> hr) = Ok (tt, h1) /\
    forall abn' h2,
      annotate_all sx sy la abn' (<[la := plain]> hr) = Ok (tt, h2) ->
      process_image f abn' h = Ok ((lr, la), h2).
Proof.
  intros Hrun.
  destruct (process_image_source _ _ _ _ _ _ Hrun)
    as (img & h0 & src & l0 & sx & sy & _ & _ & Hrest).
  exists h0, src, l0, sx, sy. exact Hrest.
Qed.

(** C9.  A run of [process_image] returns two distinct images.  The plain
    one is the resized, converted source whatever the abnormality list is:
    it holds what it holds when nothing is drawn, and the drawing differs
    from that run at the annotated image only. *)
Theorem C9_annotation_leaves_plain_image_unchanged
    `{Pydicom} `{Numpy} `{Pillow} `{Python}
    (f : UploadFile) (abnormalities : list json) (h : heap)
    (img_resized annotated : loc) (h1 : heap) :
  process_image f abnormalities h = Ok ((img_resized, annotated), h1) ->
  img_resized <> annotated /\
  exists src h0,
    let plain := Convert (Resize src (target, target)) "RGB" in
    process_image f [] h = Ok ((img_resized, annotated), h0) /\
    h0 !! img_resized = Some plain /\
    h0 !! annotated = Some plain /\
    h1 !! img_resized = Some plain /\
    forall l, l <> annotated -> h1 !! l = h0 !! l.
Proof.
  intros Hrun.
  destruct (process_image_stages _ _ _ _ _ _ Hrun)
    as (hd & src & l0 & sx & sy & Hfresh & Hne & Hsx & Hsy & Hann & Hre).
  split; [exact Hne|].
  eexists src, _. cbv zeta.
  split; [apply Hre; reflexivity|].
  assert (Hframe : forall l, l <> annotated ->
            h1 !! l = <[annotated := Convert (Resize src (target, target)) "RGB"]>
              (<[img_resized := Convert (Resize src (target, target)) "RGB"]>
                 (<[l0 := Resize src (target, target)]> hd)) !! l)
    by (eapply annotate_all_frame; eauto).
  split; [rewrite lookup_insert_ne by congruence; apply lookup_insert_eq|].
  split; [apply lookup_insert_eq|].
  split; [|exact Hframe].
  rewrite Hframe by exact Hne.
  rewrite lookup_insert_ne by congruence. apply lookup_insert_eq.
Qed.

(** Witness: a 500 by 300 PNG and one abnormality. *)
Lemma C9_annotation_witness :
  exists src h0,
    @process_image Sample.pydicom Sample.numpy Sample.pillow Sample.python
      Sample.png_upload [] ∅ = Ok ((2%nat, 3%nat), h0) /\
    h0 !! 2%nat = Some (Convert (Resize src (target, target)) "RGB").
Proof.
  assert (Hrun : exists h1,
    @process_image Sample.pydicom Sample.numpy Sample.pillow Sample.python
      Sample.png_upload [Sample.nodule] ∅ = Ok ((2%nat, 3%nat), h1))
    by (vm_compute; eexists; reflexivity).
  destruct Hrun as [h1 Hrun].
  destruct (@C9_annotation_leaves_plain_image_unchanged
              Sample.pydicom Sample.numpy Sample.pillow Sample.python
              _ _ _ _ _ _ Hrun)
    as (_ & src & h0 & Hplain & Hr & _).
  exists src, h0. split; assumption.
Defined.

(** ** One entry of the abnormality list *)

Lemma scaled_field_obj `{Python} (bf : gmap string json) key s :
  scaled_field (JObj bf) key s =
  match py_float (bbox_field bf key) with
  | Ok f => Ok (F64.mul f s)
  | Raise e => Raise e
  end.
Proof. reflexivity. Qed.





Lemma py_truediv_Ok a b q :
  py_truediv a b = Ok q -> b <> 0 /\ q = F64.div (F64.of_Z a) (F64.of_Z b).
Proof.
  unfold py_truediv. destruct (b =? 0) eqn:Hb; [discriminate|].
  intros [= <-]. split; [|reflexivity]. intros ->. discriminate.
Qed.

(** The size of the image that [process_image] decodes from the upload. *)
Lemma decoded_size `{Pydicom} `{Numpy} `{Pillow} (f : UploadFile) h img h0 src :
  let ext := lower (rsplit_dot_last (filename f)) in
  (if bool_decide (ext ∈ ["dcm"; "dicom"; "dic"]) then process_dicom (file f)
   else if String.eqb ext "png" then image_open (file f)
   else raise (HTTPException 400 "Unsupported file format")) h
  = Ok (img, h0) ->
  h0 !! img = Some src ->
  (ext = "png" /\ Image_open (file f) = Ok (image_size src)) \/
  (ext ∈ ["dcm"; "dicom"; "dic"] /\
   exists dicom raw pixel_array,
     dcmread (file f) = Ok dicom /\
     ds_pixel_array dicom = Ok raw /\
     apply_voi_lut raw dicom = Ok pixel_array /\
     image_size src = (nd_cols pixel_array, nd_rows pixel_array)).
Proof.
  intros ext Hdec Hsrc.
  destruct (bool_decide (ext ∈ ["dcm"; "dicom"; "dic"])) eqn:Hext.
  - right. apply bool_decide_eq_true in Hext. split; [exact Hext|].
    apply process_dicom_Ok in Hdec
      as (ds & raw & arr & px & Hds & Hraw & Harr & _ & _ & _ & ->).
    rewrite lookup_insert_eq in Hsrc. injection Hsrc as <-.
    exists ds, raw, arr. auto.
  - destruct (String.eqb ext "png") eqn:Hpng; [|discriminate].
    left. apply String.eqb_eq in Hpng. split; [exact Hpng|].
    unfold image_open in Hdec.
    apply bind_Ok in Hdec as (size & h2 & Hopen & Hdec).
    apply lift_Ok in Hopen as [Hopen ->].
    apply alloc_Ok in Hdec as (-> & _ & ->).
    rewrite lookup_insert_eq in Hsrc. injection Hsrc as <-. exact Hopen.
Qed.

(** The corners of an entry whose bbox parses to a positive scaled size. *)
Lemma scaled_box_parsed `{Python} sx sy (fields bf : gmap string json)
    x y w ht :
  default (JObj ∅) (fields !! "bbox") = JObj bf ->
  py_float (bbox_field bf "x") = Ok x ->
  py_float (bbox_field bf "y") = Ok y ->
  py_float (bbox_field bf "width") = Ok w ->
  py_float (bbox_field bf "height") = Ok ht ->
  F64.ltb F64.zero (F64.mul w sx) = true ->
  F64.ltb F64.zero (F64.mul ht sy) = true ->
  scaled_box sx sy (JObj fields)
  = Some (F64.mul x sx, F64.mul y sy,
          F64.add (F64.mul x sx) (F64.mul w sx),
          F64.add (F64.mul y sy) (F64.mul ht sy)).
Proof.
  intros Hbbox Hx Hy Hw Hh Hpw Hph. unfold scaled_box. cbv zeta.
  rewrite Hbbox, !scaled_field_obj, Hx, Hy, Hw, Hh, Hpw, Hph. reflexivity.
Qed.

(** C3.  [process_image] computes the two factors separately from the size
    (orig_w, orig_h) of the decoded upload, [sx = 1024 / orig_w] and
    [sy = 1024 / orig_h], and the rectangles it draws on the 1024 by 1024
    annotated image are, in the order of the list, those from (x*sx, y*sy)
    to (x*sx + w*sx, y*sy + h*sy) of the entries (x, y, w, h) whose scaled
    size is positive, in binary64 arithmetic. *)
Theorem C3_bbox_scaled_by_independent_factors
    `{Pydicom} `{Numpy} `{Pillow} `{Python}
    (f : UploadFile) (abnormalities : list json) (h : heap)
    (img_resized annotated : loc) (h1 : heap) :
  process_image f abnormalities h = Ok ((img_resized, annotated), h1) ->
  exists (orig_w orig_h : Z) (drawn : image),
    let ext := lower (rsplit_dot_last (filename f)) in
    let sx := F64.div (F64.of_Z 1024) (F64.of_Z orig_w) in
    let sy := F64.div (F64.of_Z 1024) (F64.of_Z orig_h) in
    ((ext = "png" /\ Image_open (file f) = Ok (orig_w, orig_h)) \/
     (ext ∈ ["dcm"; "dicom"; "dic"] /\
      exists dicom raw pixel_array,
        dcmread (file f) = Ok dicom /\
        ds_pixel_array dicom = Ok raw /\
        apply_voi_lut raw dicom = Ok pixel_array /\
        orig_w = nd_cols pixel_array /\ orig_h = nd_rows pixel_array)) /\
    orig_w <> 0 /\ orig_h <> 0 /\
    h1 !! annotated = Some drawn /\
    image_size drawn = (1024, 1024) /\
    drawn_boxes drawn = omap (scaled_box sx sy) abnormalities /\
    forall fields bf x y w ht,
      JObj fields ∈ abnormalities ->
      default (JObj ∅) (fields !! "bbox") = JObj bf ->
      py_float (bbox_field bf "x") = Ok x ->
      py_float (bbox_field bf "y") = Ok y ->
      py_float (bbox_field bf "width") = Ok w ->
      py_float (bbox_field bf "height") = Ok ht ->
      F64.ltb F64.zero (F64.mul w sx) = true ->
      F64.ltb F64.zero (F64.mul ht sy) = true ->
      (F64.mul x sx, F64.mul y sy,
       F64.add (F64.mul x sx) (F64.mul w sx),
       F64.add (F64.mul y sy) (F64.mul ht sy)) ∈ drawn_boxes drawn.
Proof.
  intros Hrun.
  destruct (process_image_source _ _ _ _ _ _ Hrun)
    as (img & h0 & src & l0 & sx & sy & Hdec & Hsrc & Hfresh & Hne & Hsx & Hsy
        & Hann & _).
  cbv zeta in Hdec, Hfresh, Hann.
  apply py_truediv_Ok in Hsx as [Hw ->]. apply py_truediv_Ok in Hsy as [Hh ->].
  destruct (annotate_all_boxes _ _ _ _ _ _ _ _ Hann
              ltac:(apply lookup_insert_eq))
    as (drawn & Hdrawn & Hsize & Hboxes).
  cbn [drawn_boxes app] in Hboxes. unfold target in Hboxes.
  exists (fst (image_size src)), (snd (image_size src)), drawn. cbv zeta.
  split.
  { destruct (decoded_size f h img h0 src Hdec Hsrc)
      as [[Hext Hopen]|(Hext & ds & raw & arr & Hds & Hraw & Harr & Hshape)].
    - left. split; [exact Hext|]. rewrite Hopen.
      destruct (image_size src); reflexivity.
    - right. split; [exact Hext|]. exists ds, raw, arr. rewrite Hshape. auto. }
  split; [exact Hw|]. split; [exact Hh|]. split; [exact Hdrawn|].
  split; [rewrite Hsize; reflexivity|].
  split; [exact Hboxes|].
  intros fields bf x y w ht Hin Hbbox Hx Hy Hwd Hht Hpw Hph.
  rewrite Hboxes. apply list_elem_of_omap. exists (JObj fields).
  split; [exact Hin|].
  apply (scaled_box_parsed _ _ fields bf); assumption.
Qed.
(** Witness: the box (100, 50, 40, 30) on a 500 by 300 PNG; [sx] is the
    binary64 value of 2.048 and [sy] the one nearest to 1024/300. *)
Lemma C3_bbox_witness :
  F64.div (F64.of_Z 1024) (F64.of_Z 500)
  = S754_finite false 4611686018427388 (-51) /\
  (2 * Z.abs (1000 * 4611686018427388 - 2048 * 2 ^ 51) <= 1000) /\
  F64.div (F64.of_Z 1024) (F64.of_Z 300)
  = S754_finite false 7686143364045647 (-51) /\
  (2 * Z.abs (300 * 7686143364045647 - 1024 * 2 ^ 51) <= 300) /\
  exists h1 drawn,
    @process_image Sample.pydicom Sample.numpy Sample.pillow Sample.python
      Sample.png_upload [Sample.nodule] ∅ = Ok ((2%nat, 3%nat), h1) /\
    h1 !! 3%nat = Some drawn /\
    drawn_boxes drawn
    = [(S754_finite false 7205759403792794 (-45),
        S754_finite false 6004799503160662 (-45),
        S754_finite false 5044031582654956 (-44),
        S754_finite false 4803839602528530 (-44))].
Proof.
  split; [vm_compute; reflexivity|]. split; [vm_compute; discriminate|].
  split; [vm_compute; reflexivity|]. split; [vm_compute; discriminate|].
  assert (Hrun : exists h1,
    @process_image Sample.pydicom Sample.numpy Sample.pillow Sample.python
      Sample.png_upload [Sample.nodule] ∅ = Ok ((2%nat, 3%nat), h1))
    by (vm_compute; eexists; reflexivity).
  destruct Hrun as [h1 Hrun].
  destruct (@C3_bbox_scaled_by_independent_factors
              Sample.pydicom Sample.numpy Sample.pillow Sample.python
              _ _ _ _ _ _ Hrun)
    as (orig_w & orig_h & drawn & Hsrc & _ & _ & Hdrawn & _ & Hboxes & _).
  exists h1, drawn. split; [exact Hrun|]. split; [exact Hdrawn|].
  destruct Hsrc as [[_ Hopen]|[Hext _]].
  - vm_compute in Hopen. injection Hopen as <- <-.
    rewrite Hboxes. vm_compute. reflexivity.
  - rewrite !elem_of_cons, elem_of_nil in Hext. vm_compute in Hext.
    destruct Hext as [Hext|[Hext|[Hext|[]]]]; discriminate Hext.
Defined.




(** ** Decoding failures *)

Lemma process_dicom_invalid `{Pydicom} `{Numpy} content h :
  dcmread content = Raise InvalidDicomError ->
  process_dicom content h = Raise DecodeError.
Proof.
  intros Hd. unfold process_dicom, try_except, bind, lift. rewrite Hd.
  reflexivity.
Qed.

(** C6 (the code departs from the claim).  Only the [InvalidDicomError] of
    the DICOM reader is turned into the 400 error.  A PNG payload that
    Pillow does not recognise makes [process_image] raise Pillow's own
    exception, and a DICOM whose pixel data cannot be decoded makes
    [process_dicom] raise the decoder's exception: both leave the handler
    unclassified, which the framework answers with status 500. *)
Theorem C6_decode_failures_not_rejected `{Pydicom} `{Numpy} `{Pillow} `{Python} :
  (forall f abn h,
      lower (rsplit_dot_last (filename f)) = "png" ->
      Image_open (file f) = Raise UnidentifiedImageError ->
      process_image f abn h = Raise UnidentifiedImageError) /\
  (forall content ds h e,
      dcmread content = Ok ds ->
      ds_pixel_array ds = Raise e ->
      e <> InvalidDicomError ->
      process_dicom content h = Raise e) /\
  response_status UnidentifiedImageError = 500 /\
  response_status NotImplementedError = 500.
Proof.
  split; [|split; [|split; reflexivity]].
  - intros f abn h Hext Hopen. unfold process_image. rewrite Hext.
    apply bind_Raise.
    change (bool_decide ("png" ∈ ["dcm"; "dicom"; "dic"])) with false.
    cbv iota. change (String.eqb "png" "png") with true. cbv iota.
    unfold image_open. apply bind_Raise. unfold lift. rewrite Hopen.
    reflexivity.
  - intros content ds h e Hread Hpx Hne.
    unfold process_dicom, try_except, bind, lift. rewrite Hread, Hpx.
    destruct e; try reflexivity. congruence.
Qed.

(** Witness: an empty [.png] upload, and a DICOM stream with undecodable
    pixel data. *)
Lemma C6_decode_failures_witness :
  @process_image Sample.pydicom Sample.numpy Sample.pillow Sample.python
    Sample.bad_png_upload [] ∅ = Raise UnidentifiedImageError /\
  @process_dicom Sample.pydicom Sample.numpy [Byte.xff] ∅
  = Raise NotImplementedError.
Proof.
  destruct (@C6_decode_failures_not_rejected
              Sample.pydicom Sample.numpy Sample.pillow Sample.python)
    as (Hpng & Hdcm & _).
  split.
  - apply Hpng; vm_compute; reflexivity.
  - eapply Hdcm; [vm_compute; reflexivity|vm_compute; reflexivity|discriminate].
Defined.

(** ** Page decorations when the logo cannot be loaded *)

Lemma fetch_logo_missing `{World} `{Pillow} e :
  logo_asset = Raise e ->
  fetch_logo = Raise (HTTPException 500 "Logo load failed").
Proof. unfold fetch_logo. intros ->. reflexivity. Qed.

Lemma decorate_canvas `{World} `{Pillow} doc pages :
  forall n pg, pg ∈ decorate doc n pages ->
    pg_canvas pg = _add_page_decorations (pg_number pg) doc.
Proof.
  induction pages as [|content rest IH]; intros n pg Hin; simpl in Hin.
  - apply elem_of_nil in Hin. destruct Hin.
  - apply elem_of_cons in Hin as [->|Hin]; [reflexivity|eauto].
Qed.

Lemma decorate_length `{World} `{Pillow} doc pages :
  forall n, length (decorate doc n pages) = length pages.
Proof. induction pages; intros n; simpl; auto. Qed.

Lemma decorations_without_logo `{World} `{Pillow} e doc n :
  fetch_logo = Raise e ->
  _add_page_decorations n doc =
  if n =? 1 then first_page_without_logo doc
  else [SaveState; SetFont "Helvetica" 8; footer_op doc; RestoreState].
Proof.
  intros Hlogo. unfold _add_page_decorations. rewrite Hlogo.
  destruct (n =? 1); reflexivity.
Qed.

(** C8.  When the logo cannot be loaded the decorator swallows the failure
    and [generate_pdf_report] returns the whole document, one decorated
    page per laid-out page: no page carries an image drawn by the
    decorator, every page carries the footer, and page 1 carries the date
    and the time as well. *)
Theorem C8_logo_failure_is_swallowed `{World} `{Pillow} `{Reportlab} `{Python}
    (e : exn) (orig ann : loc) (det : gmap string string) (abnormal : bool)
    (ab_list : list json) (h h1 : heap) (elems : list flowable)
    (pages : list (list flowable)) :
  fetch_logo = Raise e ->
  report_elems orig ann det abnormal ab_list h = Ok (elems, h1) ->
  layout elems = Ok pages ->
  exists pdf,
    generate_pdf_report orig ann det abnormal ab_list h = Ok (pdf, h1) /\
    map pg_content pdf = pages /\
    forall pg, pg ∈ pdf ->
      Forall (fun op => is_DrawImage op = false) (pg_canvas pg) /\
      footer_op report_template ∈ pg_canvas pg /\
      (pg_number pg = 1 ->
       pg_canvas pg = first_page_without_logo report_template).
Proof.
  intros Hlogo Helems Hlay.
  exists (decorate report_template 1 pages). split; [|split].
  - unfold generate_pdf_report. rewrite (bind_step _ _ _ _ _ Helems).
    unfold lift, build. rewrite Hlay. reflexivity.
  - generalize 1. clear. induction pages as [|p ps IH]; intros n; simpl;
      [reflexivity|]. rewrite IH. reflexivity.
  - intros pg Hin. rewrite (decorate_canvas _ _ _ _ Hin).
    rewrite (decorations_without_logo e _ _ Hlogo).
    destruct (pg_number pg =? 1) eqn:Hn.
    + split; [repeat constructor|]. split; [|reflexivity].
      unfold first_page_without_logo, footer_op.
      rewrite !elem_of_cons. auto 10.
    + split; [repeat constructor|]. split.
      * rewrite !elem_of_cons. auto.
      * intros Hone. rewrite Hone in Hn. discriminate.
Qed.

(** Witness: the logo file is missing; the report of an empty request has
    three pages. *)
Lemma C8_logo_failure_witness :
  exists pdf h1,
    @generate_pdf_report Sample.world Sample.pillow Sample.reportlab
      Sample.python 3%nat 3%nat ∅ false [] Sample.one_image = Ok (pdf, h1) /\
    length pdf = 3%nat.
Proof.
  assert (Helems : exists elems,
    @report_elems Sample.python Sample.reportlab 3%nat 3%nat ∅ false []
      Sample.one_image
    = Ok (elems, Sample.one_image) /\
    exists pages, @layout Sample.reportlab elems = Ok pages /\
                  length pages = 3%nat).
  { vm_compute. eexists. split; [reflexivity|]. eexists. split; reflexivity. }
  destruct Helems as (elems & He & pages & Hl & Hn).
  destruct (@C8_logo_failure_is_swallowed Sample.world Sample.pillow
              Sample.reportlab Sample.python
              (HTTPException 500 "Logo load failed") 3%nat 3%nat ∅ false []
              Sample.one_image Sample.one_image elems pages
              ltac:(vm_compute; reflexivity) He Hl) as (pdf & Hgen & Hc & _).
  exists pdf, Sample.one_image. split; [exact Hgen|].
  rewrite <- Hn, <- Hc. symmetry. apply length_map.
Defined.

(** ** The flag and the images *)

Lemma report_elems_run `{Python} `{Reportlab} orig ann det abnormal ab_list
    h o a :
  h !! orig = Some o -> h !! ann = Some a ->
  report_elems orig ann det abnormal ab_list h =
  match construct (elems_before det) with
  | Raise e => Raise e
  | Ok _ =>
      match findings abnormal ab_list with
      | Raise e => Raise e
      | Ok fs =>
          match construct (elems_notes det) with
          | Raise e => Raise e
          | Ok _ =>
              match construct [original_heading] with
              | Raise e => Raise e
              | Ok _ =>
                  match construct [annotated_heading] with
                  | Raise e => Raise e
                  | Ok _ => Ok (elems_before det ++ fs ++ elems_after det o a, h)
                  end
              end
          end
      end
  end.
Proof.
  intros Ho Ha. unfold report_elems, bind, lift, deref, ret.
  destruct (construct (elems_before det)); [|reflexivity].
  destruct (findings abnormal ab_list); [|reflexivity].
  destruct (construct (elems_notes det)); [|reflexivity].
  destruct (construct [original_heading]); [|reflexivity].
  rewrite Ho. destruct (construct [annotated_heading]); [|reflexivity].
  rewrite Ha. reflexivity.
Qed.

(** C10.  The image stage of [create_report] does not read the flag: two
    requests that differ in [isAbnormal] only produce the same abnormality
    list, the same two images and the same store.  Of the story handed to
    the document builder, only the findings depend on the flag: the other
    elements, and the construction of their paragraphs, are those of the
    patient details, the notes and the two stored images. *)
Theorem C10_images_independent_of_flag
    `{Pydicom} `{Numpy} `{Pillow} `{Python} `{Reportlab}
    (req : request) (b : option bool) (h : heap) :
  report_images (with_isAbnormal b req) h = report_images req h /\
  details (with_isAbnormal b req) = details req /\
  forall ab_list orig ann h1 o a,
    report_images req h = Ok ((ab_list, (orig, ann)), h1) ->
    h1 !! orig = Some o -> h1 !! ann = Some a ->
    forall flag : bool,
      report_elems orig ann (details req) flag ab_list h1 =
      match construct (elems_before (details req)) with
      | Raise e => Raise e
      | Ok _ =>
          match findings flag ab_list with
          | Raise e => Raise e
          | Ok fs =>
              match construct (elems_notes (details req) ++
                               [original_heading; annotated_heading]) with
              | Raise e => Raise e
              | Ok _ => Ok (elems_before (details req) ++ fs ++
                            elems_after (details req) o a, h1)
              end
          end
      end.
Proof.
  split; [reflexivity|]. split; [reflexivity|].
  intros ab_list orig ann h1 o a _ Ho Ha flag.
  rewrite (report_elems_run _ _ _ _ _ _ _ _ Ho Ha).
  destruct (construct (elems_before (details req))); [|reflexivity].
  destruct (findings flag ab_list); [|reflexivity].
  unfold elems_notes, original_heading, annotated_heading.
  cbn [construct app].
  repeat match goal with
         | |- context [Paragraph_parse ?t] =>
             destruct (Paragraph_parse t); try reflexivity
         end.
Qed.

(** Witness: the sample PNG request with the flag set, unset and absent. *)
Lemma C10_images_witness :
  exists h1,
    @report_images Sample.pydicom Sample.numpy Sample.pillow Sample.python
      (with_isAbnormal (Some true) Sample.empty_request) ∅
    = Ok (([], (2%nat, 3%nat)), h1) /\
    @report_images Sample.pydicom Sample.numpy Sample.pillow Sample.python
      (with_isAbnormal (Some false) Sample.empty_request) ∅
    = Ok (([], (2%nat, 3%nat)), h1).
Proof.
  assert (Hrun : exists h1,
    @report_images Sample.pydicom Sample.numpy Sample.pillow Sample.python
      Sample.empty_request ∅ = Ok (([], (2%nat, 3%nat)), h1))
    by (vm_compute; eexists; reflexivity).
  destruct Hrun as [h1 Hrun]. exists h1.
  rewrite (proj1 (@C10_images_independent_of_flag Sample.pydicom Sample.numpy
             Sample.pillow Sample.python Sample.reportlab
             Sample.empty_request (Some true) ∅)).
  rewrite (proj1 (@C10_images_independent_of_flag Sample.pydicom Sample.numpy
             Sample.pillow Sample.python Sample.reportlab
             Sample.empty_request (Some false) ∅)).
  split; exact Hrun.
Defined.

(** * Further properties *)

(** ** File names *)

Lemma lower_ascii_dot c : Ascii.eqb (lower_ascii c) dot = Ascii.eqb c dot.
Proof.
  destruct c as [[] [] [] [] [] [] [] []]; vm_compute; reflexivity.
Qed.

Lemma has_dot_lower s : has_dot (lower s) = has_dot s.
Proof.
  induction s as [|c s IH]; simpl; [reflexivity|].
  rewrite lower_ascii_dot, IH. reflexivity.
Qed.

Lemma rsplit_dot_last_lower s :
  rsplit_dot_last (lower s) = lower (rsplit_dot_last s).
Proof.
  induction s as [|c s IH]; simpl; [reflexivity|].
  rewrite has_dot_lower, lower_ascii_dot.
  destruct (has_dot s); [exact IH|].
  destruct (Ascii.eqb c dot); reflexivity.
Qed.

Lemma substring_whole s t :
  String.substring 0 (String.length t) s = t ->
  String.length s = String.length t -> s = t.
Proof.
  revert t. induction s as [|c s IH]; intros [|d t]; simpl; try congruence.
  intros [= -> Hs] [= Hl]. f_equal. auto.
Qed.

Lemma endswith_split s suffix :
  endswith s suffix = true -> exists pre, s = pre +:+ suffix.
Proof.
  unfold endswith. intros H. apply andb_true_iff in H as [Hle Heq].
  apply Nat.leb_le in Hle. apply String.eqb_eq in Heq.
  remember (String.length s - String.length suffix)%nat as k eqn:Hk.
  assert (Hlen : (k + String.length suffix = String.length s)%nat) by lia.
  clear Hk Hle. revert s Heq Hlen.
  induction k as [|k IH]; intros s Heq Hlen.
  - exists "". change (s = suffix). apply substring_whole; [exact Heq|lia].
  - destruct s as [|c s]; [simpl in Hlen; lia|].
    simpl in Heq, Hlen. destruct (IH s Heq ltac:(lia)) as [pre ->].
    exists (String c pre). reflexivity.
Qed.

Lemma rsplit_dot_last_suffix pre t :
  has_dot t = false -> rsplit_dot_last (pre +:+ String dot t) = t.
Proof.
  intros Ht. induction pre as [|c pre IH]; simpl.
  - rewrite Ht. reflexivity.
  - assert (Hd : has_dot (pre +:+ String dot t) = true).
    { clear. induction pre as [|d pre IH]; simpl.
      - reflexivity.
      - rewrite IH. apply orb_true_r. }
    rewrite Hd. exact IH.
Qed.

(** X1.  A file name that passes the suffix test of [create_report] has an
    extension that [process_image] decodes: the "Unsupported file format"
    branch is never taken for it.  The converse fails: [process_image]
    alone also takes the bare name "png". *)
Theorem accepted_suffix_is_supported (name : string) :
  valid_suffix name = true ->
  supported_ext name = true /\
  lower (rsplit_dot_last name) ∈ ["dcm"; "dicom"; "dic"; "png"].
Proof.
  unfold valid_suffix, supported_ext. intros Hv.
  rewrite <- rsplit_dot_last_lower.
  repeat (apply orb_true_iff in Hv as [Hv|Hv]);
    apply endswith_split in Hv as [pre ->];
    match goal with
    | |- context [pre +:+ String ?c ?t] =>
        change (String c t) with (String dot t);
        rewrite (rsplit_dot_last_suffix pre t eq_refl)
    end;
    (split; [reflexivity|rewrite !elem_of_cons; auto 6]).
Qed.

Lemma accepted_suffix_witness :
  supported_ext "Chest.Final.DCM" = true /\
  valid_suffix "png" = false /\ supported_ext "png" = true.
Proof.
  split; [|split; vm_compute; reflexivity].
  apply (accepted_suffix_is_supported "Chest.Final.DCM").
  vm_compute. reflexivity.
Defined.

(** ** Validation in the endpoint *)

(** X2.  [create_report] validates before any image work: a file name with
    another suffix is answered with the 400 "Invalid file format", and a
    well-named upload whose [abnormalities] field does not parse to a JSON
    array with the 400 "Invalid abnormalities", whatever the payload
    holds. *)
Theorem create_report_validates_first
    `{Pydicom} `{Numpy} `{Pillow} `{Python} `{World} `{Reportlab}
    (req : request) (h : heap) :
  (valid_suffix (filename (upload req)) = false ->
   create_report req h = Raise (HTTPException 400 "Invalid file format")) /\
  (valid_suffix (filename (upload req)) = true ->
   (forall items,
       json_loads (default "[]" (abnormalities req)) <> Ok (JArr items)) ->
   create_report req h = Raise (HTTPException 400 "Invalid abnormalities")).
Proof.
  split.
  - intros Hv. unfold create_report. apply bind_Raise.
    unfold report_images. rewrite Hv. reflexivity.
  - intros Hv Hj. unfold create_report. apply bind_Raise.
    unfold report_images. rewrite Hv. cbn [negb]. apply bind_Raise.
    unfold lift, parse_abnormalities.
    destruct (json_loads _) as [[]|]; try reflexivity.
    exfalso. eapply Hj. reflexivity.
Qed.

Lemma create_report_validation_witness :
  @create_report Sample.pydicom Sample.numpy Sample.pillow Sample.python
    Sample.world Sample.reportlab Fixture.jpg_request ∅
  = Raise (HTTPException 400 "Invalid file format") /\
  @create_report Sample.pydicom Sample.numpy Sample.pillow Sample.python
    Sample.world Sample.reportlab Fixture.bad_list_request ∅
  = Raise (HTTPException 400 "Invalid abnormalities").
Proof.
  split.
  - apply (@create_report_validates_first Sample.pydicom Sample.numpy
             Sample.pillow Sample.python Sample.world Sample.reportlab).
    vm_compute. reflexivity.
  - apply (@create_report_validates_first Sample.pydicom Sample.numpy
             Sample.pillow Sample.python Sample.world Sample.reportlab).
    + vm_compute. reflexivity.
    + intros items. vm_compute. discriminate.
Defined.

(** ** The normalised buffer *)

Lemma rescale_length a scaled :
  Np.rescale a = Ok scaled ->
  length scaled = samples_length a /\ samples_length a <> 0%nat.
Proof.
  destruct a as [dt [|v tl]|[|v tl]]; cbn [Np.rescale samples_length];
    try discriminate; intros [= <-]; cbn [length]; rewrite length_map; auto.
Qed.

Lemma invert_range v : 0 <= Np.invert v <= 255.
Proof.
  unfold Np.invert.
  assert (Hm : Z.land (Z.lnot v) 255 = Z.lnot v mod 256)
    by (change 255 with (Z.ones 8); rewrite Z.land_ones by lia; reflexivity).
  rewrite Hm.
  pose proof (Z.mod_pos_bound (Z.lnot v) 256 ltac:(lia)). lia.
Qed.

Lemma normalize_pixels_shape `{Numpy}
    (a : samples) (p : option string) (px : list Z) :
  normalize_pixels a p = Ok px ->
  length px = samples_length a /\
  samples_length a <> 0%nat /\
  Forall (fun v => 0 <= v <= 255) px.
Proof.
  unfold normalize_pixels.
  destruct (Np.rescale a) as [scaled|e] eqn:Hr; [|discriminate].
  destruct p as [p|]; [|discriminate].
  destruct (rescale_length _ _ Hr) as [Hlen Hne].
  intros [= <-]. split; [|split; [exact Hne|]].
  - destruct (String.eqb p "MONOCHROME1"); rewrite ?length_map; exact Hlen.
  - destruct (String.eqb p "MONOCHROME1").
    + clear. induction scaled; constructor; auto using invert_range.
    + clear. induction scaled; constructor; auto using astype_uint8_range.
Qed.

(** X3.  Whatever the dtype, the values and the polarity, a buffer that
    [process_dicom] normalises keeps its number of samples and every output
    sample is an 8-bit value; only an empty buffer has no output. *)
Theorem normalized_buffer_is_8bit `{Numpy}
    (a : samples) (p : option string) (px : list Z) :
  normalize_pixels a p = Ok px ->
  length px = samples_length a /\
  samples_length a <> 0%nat /\
  Forall (fun v => 0 <= v <= 255) px.
Proof. apply normalize_pixels_shape. Qed.

Lemma normalized_buffer_witness :
  exists px,
    @normalize_pixels Sample.numpy (Floats [F64.of_Z 3; F64.nan; F64.of_Z (-2)])
      (Some "MONOCHROME1") = Ok px /\
    length px = 3%nat /\ Forall (fun v => 0 <= v <= 255) px.
Proof.
  assert (Hrun : exists px,
    @normalize_pixels Sample.numpy (Floats [F64.of_Z 3; F64.nan; F64.of_Z (-2)])
      (Some "MONOCHROME1") = Ok px) by (vm_compute; eexists; reflexivity).
  destruct Hrun as [px Hrun]. exists px. split; [exact Hrun|].
  destruct (@normalized_buffer_is_8bit Sample.numpy _ _ _ Hrun)
    as (Hlen & _ & Hrange).
  split; [exact Hlen|exact Hrange].
Defined.

(** Witness of [normalize_range_nondegenerate]: a signed 16-bit buffer
    whose range does not fit the dtype, so that [max - min] wraps to -1. *)
Lemma normalize_range_witness :
  exists px,
    @normalize_pixels Sample.numpy
      (Ints {| dt_signed := true; dt_bits := 16 |} [-32768; 0; 32767])
      (Some "MONOCHROME2") = Ok px /\
    px !! 0%nat = Some 0 /\ px !! 2%nat = Some 255.
Proof.
  destruct (@normalize_range_nondegenerate Sample.numpy
              {| dt_signed := true; dt_bits := 16 |} (-32768) [0; 32767]
              ltac:(vm_compute; discriminate) ltac:(vm_compute; reflexivity))
    as (px & Hrun & _ & Hmin & Hmax & _).
  exists px. split; [exact Hrun|]. split.
  - apply Hmin. reflexivity.
  - apply Hmax. reflexivity.
Defined.

(** ** [process_dicom] as a whole *)

Lemma process_dicom_alloc `{Pydicom} `{Numpy} content h l h1 :
  process_dicom content h = Ok (l, h1) ->
  h !! l = None /\ exists i, h1 = <[l := i]> h.
Proof.
  unfold process_dicom, try_except. intros Hrun.
  match type of Hrun with
  | match ?c with _ => _ end = _ => destruct c as [[l' h']|e] eqn:Hbody
  end; [|destruct e; discriminate].
  injection Hrun as -> ->.
  repeat (apply bind_Ok in Hbody as (? & ? & Hstep & Hbody);
          apply lift_Ok in Hstep as [_ ->]).
  apply alloc_Ok in Hbody as (_ & Hfresh & ->). eauto.
Qed.

(** X5.  A successful [process_dicom] allocates exactly one image, at a
    location that held nothing, built from the decoded array: it has the
    array's shape and as many 8-bit samples as the array; no other object
    of the store changes. *)
Theorem process_dicom_allocates_one_image `{Pydicom} `{Numpy}
    (content : bytes) (h h1 : heap) (l : loc) :
  process_dicom content h = Ok (l, h1) ->
  h !! l = None /\
  exists ds raw arr px,
    dcmread content = Ok ds /\
    ds_pixel_array ds = Ok raw /\
    apply_voi_lut raw ds = Ok arr /\
    h1 = <[l := FromArray (nd_rows arr) (nd_cols arr) px]> h /\
    length px = samples_length (nd_data arr) /\
    Forall (fun v => 0 <= v <= 255) px /\
    image_size (FromArray (nd_rows arr) (nd_cols arr) px)
    = (nd_cols arr, nd_rows arr).
Proof.
  unfold process_dicom, try_except. intros Hrun.
  match type of Hrun with
  | match ?c with _ => _ end = _ => destruct c as [[l' h']|e] eqn:Hbody
  end.
  - injection Hrun as -> ->.
    apply bind_Ok in Hbody as (ds & h2 & Hds & Hbody).
    apply lift_Ok in Hds as [Hds ->].
    apply bind_Ok in Hbody as (raw & h2 & Hraw & Hbody).
    apply lift_Ok in Hraw as [Hraw ->].
    apply bind_Ok in Hbody as (arr & h2 & Harr & Hbody).
    apply lift_Ok in Harr as [Harr ->].
    apply bind_Ok in Hbody as (px & h2 & Hpx & Hbody).
    apply lift_Ok in Hpx as [Hpx ->].
    apply alloc_Ok in Hbody as (_ & Hfresh & ->).
    split; [exact Hfresh|]. exists ds, raw, arr, px.
    destruct (normalize_pixels_shape _ _ _ Hpx) as (Hlen & _ & Hrange).
    repeat split; assumption.
  - destruct e; discriminate.
Qed.

Lemma process_dicom_allocation_witness :
  exists l h1 arr px,
    @process_dicom Sample.pydicom Sample.numpy
      [Byte.x01; Byte.x00; Byte.x80; Byte.xff] ∅ = Ok (l, h1) /\
    h1 = <[l := FromArray (nd_rows arr) (nd_cols arr) px]> ∅ /\
    length px = samples_length (nd_data arr) /\
    Forall (fun v => 0 <= v <= 255) px.
Proof.
  assert (Hrun : exists l h1,
    @process_dicom Sample.pydicom Sample.numpy
      [Byte.x01; Byte.x00; Byte.x80; Byte.xff] ∅ = Ok (l, h1))
    by (vm_compute; eexists _, _; reflexivity).
  destruct Hrun as (l & h1 & Hrun).
  destruct (@process_dicom_allocates_one_image Sample.pydicom Sample.numpy
              _ _ _ _ Hrun)
    as (_ & ds & raw & arr & px & _ & _ & _ & Hh & Hlen & Hrange & _).
  exists l, h1, arr, px. auto.
Defined.

(** X6.  [InvalidDicomError] never leaves [process_dicom]: it is always
    replaced by the 400 error, and a stream the reader rejects is answered
    with it. *)
Theorem process_dicom_never_leaks_reader_error `{Pydicom} `{Numpy}
    (content : bytes) (h : heap) :
  process_dicom content h <> Raise InvalidDicomError /\
  (dcmread content = Raise InvalidDicomError ->
   process_dicom content h = Raise DecodeError) /\
  response_status DecodeError = 400.
Proof.
  split; [|split; [apply process_dicom_invalid|reflexivity]].
  unfold process_dicom, try_except.
  match goal with
  | |- match ?c with _ => _ end <> _ => destruct c as [[l' h']|e]
  end; [discriminate|].
  destruct e; discriminate.
Qed.

Lemma process_dicom_reader_error_witness :
  @process_dicom Sample.pydicom Sample.numpy [] ∅ = Raise DecodeError.
Proof.
  apply (@process_dicom_never_leaks_reader_error Sample.pydicom Sample.numpy).
  reflexivity.
Defined.

(** ** The annotation loop *)

(** A successful step either leaves the store alone or puts one more
    rectangle, with at most one label, on the image at [la]. *)
Lemma annotate_entry_Ok `{Pillow} `{Python} sx sy la ab h u h1 :
  annotate_entry sx sy la ab h = Ok (u, h1) ->
  is_dict ab = true /\
  (h1 = h \/
   exists i i',
     h !! la = Some i /\ h1 = <[la := i']> h /\
     undrawn i' = undrawn i /\
     rectangles i' = S (rectangles i) /\
     (labels i <= labels i' <= S (labels i))%nat /\
     (overlays_styled i = true -> overlays_styled i' = true)).
Proof.
  destruct (is_dict ab) eqn:Hd;
    [|rewrite annotate_entry_not_dict by exact Hd; discriminate].
  destruct ab as [| | | | | |fields]; try discriminate.
  rewrite annotate_entry_run. cbv zeta. intros Hrun. split; [reflexivity|].
  destruct (scaled_field _ "x" sx) as [x|]; [|discriminate].
  destruct (scaled_field _ "y" sy) as [y|]; [|discriminate].
  destruct (scaled_field _ "width" sx) as [w|]; [|discriminate].
  destruct (scaled_field _ "height" sy) as [ht|]; [|discriminate].
  destruct (F64.ltb F64.zero w && F64.ltb F64.zero ht);
    [|injection Hrun as _ <-; left; reflexivity].
  destruct (h !! la) as [i|] eqn:Hla; [|discriminate].
  right. exists i.
  destruct (ImageDraw_rectangle i _ "red" 3); [|discriminate].
  destruct (truthy _).
  - destruct (default _ _); try discriminate.
    destruct (ImageDraw_text _ _ _ "red"); [|discriminate].
    injection Hrun as _ <-. eexists. split; [reflexivity|].
    split; [reflexivity|]. cbn [undrawn rectangles labels overlays_styled snd].
    rewrite py_max0_not_negative.
    repeat split; try lia. intros ->. reflexivity.
  - injection Hrun as _ <-. eexists. split; [reflexivity|].
    split; [reflexivity|]. cbn [undrawn rectangles labels overlays_styled].
    repeat split; try lia. intros ->. reflexivity.
Qed.

Lemma annotate_all_Ok `{Pillow} `{Python} sx sy la abn :
  forall h u h1 i,
    annotate_all sx sy la abn h = Ok (u, h1) ->
    h !! la = Some i ->
    Forall (fun ab => is_dict ab = true) abn /\
    exists i',
      h1 !! la = Some i' /\
      undrawn i' = undrawn i /\
      (rectangles i' <= rectangles i + length abn)%nat /\
      (rectangles i <= rectangles i')%nat /\
      (labels i <= labels i')%nat /\
      (labels i' + rectangles i <= labels i + rectangles i')%nat /\
      (overlays_styled i = true -> overlays_styled i' = true).
Proof.
  induction abn as [|ab rest IH]; intros h u h1 i Hrun Hla.
  - apply ret_Ok in Hrun as [_ ->]. split; [constructor|].
    exists i. repeat split; auto; lia.
  - cbn [annotate_all] in Hrun.
    apply bind_Ok in Hrun as (u' & h' & He & Hr).
    apply annotate_entry_Ok in He as [Hd Hstep].
    destruct Hstep as [->|(j & j' & Hj & -> & Hu & Hrect & Hlab & Hst)].
    + destruct (IH _ _ _ _ Hr Hla) as (Hall & i' & ? & ? & ? & ? & ? & ? & ?).
      split; [constructor; assumption|].
      exists i'. cbn [length]. repeat split; auto; lia.
    + rewrite Hla in Hj. injection Hj as <-.
      destruct (IH _ _ _ j' Hr ltac:(apply lookup_insert_eq))
        as (Hall & i' & ? & ? & ? & ? & ? & ? & ?).
      split; [constructor; assumption|].
      exists i'. cbn [length]. repeat split; auto; try lia; congruence.
Qed.

(** X8.  The loop fails in two ways only: with the 400 "Invalid bbox", or
    with a plain [AttributeError] when an entry of the list is not an
    object, since [ab.get] is called before the [try]. *)
Theorem annotate_all_failures `{Pillow} `{Python} (sx sy : float) (la : loc)
    (abnormalities : list json) (h : heap) (e : exn) :
  annotate_all sx sy la abnormalities h = Raise e ->
  e = InvalidAnnotationError \/
  (e = AttributeError /\
   Exists (fun ab => is_dict ab = false) abnormalities /\
   response_status e = 500).
Proof.
  revert h. induction abnormalities as [|ab rest IH]; intros h Hrun;
    [discriminate|].
  cbn [annotate_all] in Hrun. unfold bind in Hrun.
  destruct (annotate_entry sx sy la ab h) as [[u h']|e'] eqn:He.
  - destruct (IH _ Hrun) as [->|(-> & Hex & Hs)]; [left; reflexivity|].
    right. repeat split; auto.
  - injection Hrun as <-. destruct (is_dict ab) eqn:Hd.
    + left. destruct ab; try discriminate.
      rewrite annotate_entry_run in He. cbv zeta in He.
      repeat match type of He with
             | match ?c with _ => _ end = _ => destruct c; try discriminate
             | (if ?c then _ else _) = _ => destruct c; try discriminate
             end; congruence.
    + right. rewrite (annotate_entry_not_dict _ _ _ _ _ Hd) in He.
      injection He as <-. repeat split; auto.
Qed.

Lemma annotate_all_failures_witness :
  @annotate_all Sample.pillow Sample.python Sample.sx Sample.sy 3%nat
    [Sample.nodule; JInt 5] Sample.one_image = Raise AttributeError /\
  Exists (fun ab => is_dict ab = false) [Sample.nodule; JInt 5].
Proof.
  assert (Hrun : @annotate_all Sample.pillow Sample.python Sample.sx Sample.sy 3%nat
            [Sample.nodule; JInt 5] Sample.one_image = Raise AttributeError)
    by (vm_compute; reflexivity).
  split; [exact Hrun|].
  destruct (@annotate_all_failures Sample.pillow Sample.python _ _ _ _ _ _ Hrun)
    as [Hbad|(_ & Hex & _)]; [discriminate Hbad|exact Hex].
Defined.

(** X9.  A box of which the parsed width or the parsed height is zero is
    skipped whatever the scale factors are (infinite or NaN included); in
    particular an entry without [bbox], whose fields all default to 0. *)
Theorem zero_size_box_is_skipped `{Pillow} `{Python} (sx sy : float) (la : loc)
    (fields bf : gmap string json) (h : heap) (x y w ht : float) :
  default (JObj ∅) (fields !! "bbox") = JObj bf ->
  py_float (bbox_field bf "x") = Ok x ->
  py_float (bbox_field bf "y") = Ok y ->
  py_float (bbox_field bf "width") = Ok w ->
  py_float (bbox_field bf "height") = Ok ht ->
  F64.is_zero w || F64.is_zero ht = true ->
  annotate_entry sx sy la (JObj fields) h = Ok (tt, h).
Proof.
  intros Hbbox Hx Hy Hw Hh Hz.
  rewrite annotate_entry_run. cbv zeta.
  rewrite Hbbox, !scaled_field_obj, Hx, Hy, Hw, Hh.
  assert (Hnp : F64.ltb F64.zero (F64.mul w sx)
                && F64.ltb F64.zero (F64.mul ht sy) = false).
  { apply orb_true_iff in Hz as [Hz|Hz].
    - destruct w; try discriminate. destruct sx as [| | |]; reflexivity.
    - apply andb_false_iff. right.
      destruct ht; try discriminate. destruct sy as [| | |]; reflexivity. }
  rewrite Hnp. reflexivity.
Qed.

Lemma zero_size_box_witness :
  @annotate_entry Sample.pillow Sample.python (S754_infinity false) F64.nan 3%nat
    (JObj (<["name" := JStr "Nodule"]> ∅)) Sample.one_image
  = Ok (tt, Sample.one_image).
Proof.
  apply (@zero_size_box_is_skipped Sample.pillow Sample.python _ _ _ _ ∅ _
           F64.zero F64.zero F64.zero F64.zero); reflexivity.
Defined.

(** ** [process_image] as a whole *)

Lemma image_size_undrawn i : image_size i = image_size (undrawn i).
Proof. induction i; simpl; auto. Qed.

(** X10.  After a successful [process_image] the annotated image is the
    plain 1024 by 1024 image under drawing calls only: at most one
    rectangle per entry and at most one label per rectangle, all in red,
    rectangles of width 3, no label anchored above the top edge; both
    images have the canonical size whatever the size of the source. *)
Theorem annotated_is_plain_under_overlays
    `{Pydicom} `{Numpy} `{Pillow} `{Python}
    (f : UploadFile) (abnormalities : list json) (h h1 : heap)
    (img_resized annotated : loc) :
  process_image f abnormalities h = Ok ((img_resized, annotated), h1) ->
  exists plain drawn,
    h1 !! img_resized = Some plain /\
    h1 !! annotated = Some drawn /\
    undrawn drawn = plain /\
    (rectangles drawn <= length abnormalities)%nat /\
    (labels drawn <= rectangles drawn)%nat /\
    overlays_styled drawn = true /\
    image_size plain = (1024, 1024) /\
    image_size drawn = (1024, 1024).
Proof.
  intros Hrun.
  destruct (process_image_stages _ _ _ _ _ _ Hrun)
    as (hd & src & l0 & sx & sy & Hfresh & Hne & Hsx & Hsy & Hann & _).
  cbv zeta in *.
  set (plain := Convert (Resize src (target, target)) "RGB") in *.
  destruct (annotate_all_Ok _ _ _ _ _ _ _ plain Hann
              ltac:(apply lookup_insert_eq))
    as (_ & drawn & Hd & Hu & Hr & _ & _ & Hl & Hs).
  exists plain, drawn.
  split.
  { rewrite (annotate_all_frame _ _ _ _ _ _ _ Hann _ Hne).
    rewrite lookup_insert_ne by congruence. apply lookup_insert_eq. }
  split; [exact Hd|]. split; [exact Hu|].
  cbn [rectangles labels plain] in Hr, Hl.
  split; [exact Hr|]. split; [lia|]. split; [apply Hs; reflexivity|].
  split; [reflexivity|].
  rewrite image_size_undrawn, Hu. reflexivity.
Qed.

Lemma annotated_overlays_witness :
  exists plain drawn h1,
    @process_image Sample.pydicom Sample.numpy Sample.pillow Sample.python
      Sample.png_upload [Sample.nodule; JObj Sample.flat_entry] ∅
    = Ok ((2%nat, 3%nat), h1) /\
    h1 !! 3%nat = Some drawn /\ undrawn drawn = plain /\
    (rectangles drawn <= 2)%nat /\ image_size drawn = (1024, 1024).
Proof.
  assert (Hrun : exists h1,
    @process_image Sample.pydicom Sample.numpy Sample.pillow Sample.python
      Sample.png_upload [Sample.nodule; JObj Sample.flat_entry] ∅
    = Ok ((2%nat, 3%nat), h1)) by (vm_compute; eexists; reflexivity).
  destruct Hrun as [h1 Hrun].
  destruct (@annotated_is_plain_under_overlays Sample.pydicom Sample.numpy
              Sample.pillow Sample.python _ _ _ _ _ _ Hrun)
    as (plain & drawn & _ & Hd & Hu & Hr & _ & _ & _ & Hs).
  exists plain, drawn, h1. auto.
Defined.

(** The store after a successful [process_image]: four new objects on top
    of the store it started from, the last one drawn on. *)
Lemma process_image_store `{Pydicom} `{Numpy} `{Pillow} `{Python}
    f abn h lr la h1 :
  process_image f abn h = Ok ((lr, la), h1) ->
  exists img src l0 hr,
    h !! img = None /\
    (<[img := src]> h) !! l0 = None /\
    (<[l0 := Resize src (target, target)]> (<[img := src]> h)) !! lr = None /\
    hr = <[lr := Convert (Resize src (target, target)) "RGB"]>
           (<[l0 := Resize src (target, target)]> (<[img := src]> h)) /\
    hr !! la = None /\
    forall l, l <> la -> h1 !! l = hr !! l.
Proof.
  unfold process_image. intros Hrun.
  apply bind_Ok in Hrun as (img & h0 & Hdec & Hrun).
  assert (Hdec' : h !! img = None /\ exists src, h0 = <[img := src]> h).
  { destruct (bool_decide _).
    - eapply process_dicom_alloc; eauto.
    - destruct (String.eqb _ "png"); [|discriminate].
      unfold image_open in Hdec.
      apply bind_Ok in Hdec as (sz & h' & Hsz & Hdec).
      apply lift_Ok in Hsz as [_ ->].
      apply alloc_Ok in Hdec as (_ & Hf & ->). eauto. }
  destruct Hdec' as (Himg & src0 & ->).
  apply bind_Ok in Hrun as (src & h0' & Hsrc & Hrun).
  apply deref_Ok in Hsrc as [Hsrc ->].
  rewrite lookup_insert_eq in Hsrc. injection Hsrc as ->.
  apply bind_Ok in Hrun as (l0 & h2 & Hres & Hrun).
  apply bind_Ok in Hrun as (lr' & h3 & Hconv & Hrun).
  apply bind_Ok in Hrun as (la' & h4 & Hcopy & Hrun).
  apply bind_Ok in Hrun as (sx & h5 & Hsx & Hrun).
  apply lift_Ok in Hsx as [Hsx ->].
  apply bind_Ok in Hrun as (sy & h6 & Hsy & Hrun).
  apply lift_Ok in Hsy as [Hsy ->].
  apply bind_Ok in Hrun as ([] & h7 & Hann & Hrun).
  apply ret_Ok in Hrun as [[= <- <-] ->].
  unfold img_resize in Hres.
  apply bind_Ok in Hres as (src' & h8 & Hd & Hres).
  apply deref_Ok in Hd as [Hd ->]. rewrite lookup_insert_eq in Hd.
  injection Hd as <-.
  apply bind_Ok in Hres as ([] & h9 & Hload & Hres).
  assert (h9 = <[img := src]> h) as ->.
  { destruct src; try (apply ret_Ok in Hload as [_ ->]; reflexivity).
    apply lift_Ok in Hload as [_ ->]. reflexivity. }
  apply alloc_Ok in Hres as (-> & Hfresh0 & ->).
  unfold img_convert in Hconv.
  apply bind_Ok in Hconv as (r & h10 & Hd & Hconv).
  apply deref_Ok in Hd as [Hd ->]. rewrite lookup_insert_eq in Hd.
  injection Hd as <-.
  apply alloc_Ok in Hconv as (-> & Hfresh1 & ->).
  unfold img_copy in Hcopy.
  apply bind_Ok in Hcopy as (c & h11 & Hd & Hcopy).
  apply deref_Ok in Hd as [Hd ->]. rewrite lookup_insert_eq in Hd.
  injection Hd as <-.
  apply alloc_Ok in Hcopy as (-> & Hfresh2 & ->).
  eexists img, src, _, _. split; [exact Himg|]. split; [exact Hfresh0|].
  split; [exact Hfresh1|]. split; [reflexivity|]. split; [exact Hfresh2|].
  intros l Hl. rewrite (annotate_all_frame _ _ _ _ _ _ _ Hann l Hl).
  apply lookup_insert_ne. congruence.
Qed.

(** X11.  [process_image] only adds objects to the store: every image that
    was there before the call is still there, unchanged, and the two
    images it returns are new. *)
Theorem process_image_keeps_the_store
    `{Pydicom} `{Numpy} `{Pillow} `{Python}
    (f : UploadFile) (abnormalities : list json) (h h1 : heap)
    (img_resized annotated : loc) :
  process_image f abnormalities h = Ok ((img_resized, annotated), h1) ->
  h !! img_resized = None /\
  h !! annotated = None /\
  forall l i, h !! l = Some i -> h1 !! l = Some i.
Proof.
  intros Hrun.
  destruct (process_image_store _ _ _ _ _ _ Hrun)
    as (img & src & l0 & hr & Himg & Hl0 & Hlr & -> & Hla & Hframe).
  assert (Hold : forall l i, h !! l = Some i ->
            l <> img /\ l <> l0 /\ l <> img_resized /\ l <> annotated).
  { intros l i Hl.
    assert (Ne1 : l <> img) by congruence.
    assert (Ne2 : l <> l0).
    { intros ->. rewrite lookup_insert_ne in Hl0 by congruence. congruence. }
    assert (Ne3 : l <> img_resized).
    { intros ->. rewrite !lookup_insert_ne in Hlr by congruence. congruence. }
    repeat split; auto.
    intros ->. rewrite !lookup_insert_ne in Hla by congruence. congruence. }
  split; [|split].
  - destruct (h !! img_resized) as [i|] eqn:Hi; [|reflexivity].
    destruct (Hold _ _ Hi) as (_ & _ & Hne & _). congruence.
  - destruct (h !! annotated) as [i|] eqn:Hi; [|reflexivity].
    destruct (Hold _ _ Hi) as (_ & _ & _ & Hne). congruence.
  - intros l i Hl. destruct (Hold _ _ Hl) as (? & ? & ? & ?).
    rewrite Hframe by assumption.
    rewrite !lookup_insert_ne by congruence. exact Hl.
Qed.

Lemma process_image_store_witness :
  exists h1,
    @process_image Sample.pydicom Sample.numpy Sample.pillow Sample.python
      Sample.png_upload [Sample.nodule] Sample.one_image
    = Ok ((6%nat, 7%nat), h1) /\
    h1 !! 3%nat = Some Sample.canvas.
Proof.
  assert (Hrun : exists h1,
    @process_image Sample.pydicom Sample.numpy Sample.pillow Sample.python
      Sample.png_upload [Sample.nodule] Sample.one_image
    = Ok ((6%nat, 7%nat), h1)) by (vm_compute; eexists; reflexivity).
  destruct Hrun as [h1 Hrun]. exists h1. split; [exact Hrun|].
  destruct (@process_image_keeps_the_store Sample.pydicom Sample.numpy
              Sample.pillow Sample.python _ _ _ _ _ _ Hrun) as (_ & _ & Hkeep).
  apply Hkeep. vm_compute. reflexivity.
Defined.

(** X12.  When the image stage of [create_report] succeeds, every entry of
    the abnormality list is an object, so the findings never fail on
    [ab.get]: they fail only when reportlab refuses one of their texts as
    markup, with reportlab's error.  When they are built they are
    paragraphs, one for "Normal" or one per entry after the heading; and
    they are built when reportlab accepts their texts. *)
Theorem findings_fail_on_markup_only
    `{Pydicom} `{Numpy} `{Pillow} `{Python} `{Reportlab}
    (req : request) (h h1 : heap) (ab_list : list json) (orig ann : loc) :
  report_images req h = Ok ((ab_list, (orig, ann)), h1) ->
  Forall (fun ab => is_dict ab = true) ab_list /\
  forall flag : bool,
    (forall e, findings flag ab_list = Raise e ->
       exists text,
         Paragraph_parse text = Raise e /\
         (text = "Normal" \/ text = "Abnormalities:" \/
          exists (k : nat) ab,
            ab_list !! k = Some ab /\ text = finding_line k ab)) /\
    (forall fs, findings flag ab_list = Ok fs ->
       Forall (fun fl => is_paragraph fl = true) fs /\
       length fs = if flag && negb (bool_decide (ab_list = []))
                   then S (length ab_list) else 1%nat) /\
    (Paragraph_parse "Normal" = Ok tt ->
     Paragraph_parse "Abnormalities:" = Ok tt ->
     (forall (k : nat) ab, ab_list !! k = Some ab ->
        Paragraph_parse (finding_line k ab) = Ok tt) ->
     exists fs, findings flag ab_list = Ok fs).
Proof.
  unfold report_images. intros Hrun.
  destruct (negb _); [discriminate|].
  apply bind_Ok in Hrun as (abn & h0 & Hp & Hrun).
  apply lift_Ok in Hp as [Hp ->].
  apply bind_Ok in Hrun as ([lr la] & h2 & Himg & Hrun).
  apply ret_Ok in Hrun as [[= <- <- <-] ->].
  destruct (process_image_stages _ _ _ _ _ _ Himg)
    as (hd & src & l0 & sx & sy & _ & _ & _ & _ & Hann & _).
  cbv zeta in Hann.
  destruct (annotate_all_Ok _ _ _ _ _ _ _ _ Hann ltac:(apply lookup_insert_eq))
    as (Hall & _).
  split; [exact Hall|]. intros flag. unfold findings.
  destruct (flag && negb (bool_decide (ab_list = []))); split; [|split| |split].
  - intros e He.
    destruct (new_paragraph "Abnormalities:" SubHeader) as [hd'|e'] eqn:Hh.
    + destruct (enumerated 1 ab_list) as [ps|e''] eqn:Hps; [discriminate|].
      injection He as <-.
      destruct (enumerated_Raise _ Hall _ _ Hps) as (k & ab & Hk & Hparse).
      eexists. split; [exact Hparse|]. right. right. exists k, ab.
      split; [exact Hk|]. unfold finding_line. do 2 f_equal. lia.
    + injection He as <-. apply new_paragraph_Raise in Hh. eauto.
  - intros fs Hfs.
    destruct (new_paragraph "Abnormalities:" SubHeader) as [hd'|] eqn:Hh;
      [|discriminate].
    apply new_paragraph_Ok in Hh as [_ ->].
    destruct (enumerated 1 ab_list) as [ps|] eqn:Hps; [|discriminate].
    injection Hfs as <-. destruct (enumerated_Ok _ _ _ Hps) as (_ & Hlen & Hk).
    split; [|simpl; congruence].
    constructor; [reflexivity|]. apply Forall_lookup. intros k fl Hfl.
    destruct (ab_list !! k) as [ab|] eqn:Hab.
    + destruct (Hk k ab Hab) as [Hpk _]. rewrite Hpk in Hfl.
      injection Hfl as <-. reflexivity.
    + apply lookup_ge_None in Hab. apply lookup_lt_Some in Hfl. lia.
  - intros _ Hhead Hlines. unfold new_paragraph at 1. rewrite Hhead.
    destruct (enumerated_accepted ab_list Hall 1) as [ps ->]; [|eauto].
    intros k ab Hk. specialize (Hlines k ab Hk). unfold finding_line in Hlines.
    replace (1 + Z.of_nat k) with (Z.of_nat k + 1) by lia. exact Hlines.
  - intros e He.
    destruct (new_paragraph "Normal" CustomNormal) as [p|e'] eqn:Hn;
      [discriminate|].
    injection He as <-. apply new_paragraph_Raise in Hn. eauto.
  - intros fs Hfs.
    destruct (new_paragraph "Normal" CustomNormal) as [p|] eqn:Hn;
      [|discriminate].
    apply new_paragraph_Ok in Hn as [_ ->]. injection Hfs as <-.
    split; [repeat constructor|reflexivity].
  - intros Hnormal _ _. unfold new_paragraph. rewrite Hnormal. eauto.
Qed.

(** Witness: a request that lists the sample nodule; and a name that is
    refused as markup. *)
Lemma findings_after_images_witness :
  (exists fs,
     @findings Fixture.python_reader Sample.reportlab true [Sample.nodule]
     = Ok fs /\ length fs = 2%nat) /\
  @findings Fixture.python_reader Sample.reportlab true [Fixture.markup_entry]
  = Raise ValueError.
Proof.
  split; [|vm_compute; reflexivity].
  assert (Hrun : exists h1,
    @report_images Sample.pydicom Sample.numpy Sample.pillow
      Fixture.python_reader Fixture.nodule_request ∅
    = Ok (([Sample.nodule], (2%nat, 3%nat)), h1))
    by (vm_compute; eexists; reflexivity).
  destruct Hrun as [h1 Hrun].
  destruct (@findings_fail_on_markup_only Sample.pydicom Sample.numpy
              Sample.pillow Fixture.python_reader Sample.reportlab
              _ _ _ _ _ _ Hrun) as [_ Hf].
  destruct (Hf true) as (_ & Hshape & Hbuilt).
  destruct Hbuilt as [fs Hfs]; [reflexivity|reflexivity| |].
  - intros [|k] ab Hk; [|discriminate Hk]. injection Hk as <-.
    vm_compute. reflexivity.
  - exists fs. split; [exact Hfs|]. destruct (Hshape fs Hfs) as [_ Hlen].
    exact Hlen.
Defined.

(** ** The logo and the page decorations *)

(** X13.  [fetch_logo] fails in one way only, with the 500 "Logo load
    failed", whatever went wrong (missing file, unknown format, undecodable
    raster, zero width).  When it succeeds the logo is flattened on a white
    background of its own size and is displayed 108 points wide (1.5 inch),
    its height following the aspect ratio. *)
Theorem fetch_logo_outcomes `{World} `{Pillow} :
  (forall e, fetch_logo = Raise e -> e = logo_failed) /\
  (forall buf lw lh,
      fetch_logo = Ok (buf, (lw, lh)) ->
      exists content size,
        logo_asset = Ok content /\
        Image_open content = Ok size /\
        fst size <> 0 /\
        buf = Paste (NewImage "RGB" size (255, 255, 255))
                    (Convert (Opened content size) "RGBA") /\
        image_size buf = size /\
        lw = F64.of_Z 108 /\
        lh = F64.mul lw (F64.div (F64.of_Z (snd size)) (F64.of_Z (fst size)))).
Proof.
  unfold fetch_logo, logo_failed. split.
  - intros e.
    repeat match goal with
           | |- context [match ?c with Ok _ => _ | Raise _ => _ end] =>
               destruct c
           end; congruence.
  - intros buf lw lh.
    destruct logo_asset as [content|]; [|discriminate].
    destruct (Image_open content) as [size|] eqn:Hopen; [|discriminate].
    destruct (Image_load content); [|discriminate].
    unfold py_truediv. destruct (fst size =? 0) eqn:Hz; [discriminate|].
    intros [= <- <- <-]. exists content, size.
    apply Z.eqb_neq in Hz. repeat split; auto.
Qed.

Lemma fetch_logo_witness :
  exists buf,
    @fetch_logo Fixture.world_with_logo Fixture.pillow_logo
    = Ok (buf, (F64.of_Z 108, F64.of_Z 36)).
Proof.
  assert (Hrun : exists buf,
    @fetch_logo Fixture.world_with_logo Fixture.pillow_logo
    = Ok (buf, (F64.of_Z 108, F64.of_Z 36)))
    by (vm_compute; eexists; reflexivity).
  destruct Hrun as [buf Hrun]. exists buf.
  destruct (proj2 (@fetch_logo_outcomes Fixture.world_with_logo
                     Fixture.pillow_logo) _ _ _ Hrun)
    as (content & size & _ & _ & _ & _ & _ & _ & _).
  exact Hrun.
Defined.

(** X14.  On every page the decorator saves the canvas state first and
    ends with the 8-point footer and the restore.  Between them a page
    other than page 1 gets nothing, whether the logo loads or not; page 1
    gets the date and the time, in this order, after the logo if there is
    one. *)
Theorem page_decorations_shape `{World} `{Pillow}
    (n : Z) (doc : doc_template) :
  exists mid,
    _add_page_decorations n doc =
      SaveState :: mid ++
      [SetFont "Helvetica" 8; footer_op doc; RestoreState] /\
    (n <> 1 -> mid = []) /\
    (n = 1 ->
     exists logo date time,
       mid = logo ++ [SetFont "Helvetica" 10; date; time] /\
       (length logo <= 1)%nat /\
       Forall (fun op => is_DrawImage op = true) logo /\
       is_text_op date = true /\ is_text_op time = true /\
       (logo = [] <-> exists e, fetch_logo = Raise e)).
Proof.
  unfold _add_page_decorations, footer_op. cbn [letter].
  destruct (n =? 1) eqn:Hn.
  - apply Z.eqb_eq in Hn. eexists. split; [reflexivity|].
    split; [congruence|]. intros _.
    destruct fetch_logo as [[buf [lw lh]]|e].
    + eexists [_], _, _. split; [reflexivity|]. cbn [length].
      split; [lia|]. split; [repeat constructor|].
      split; [reflexivity|]. split; [reflexivity|].
      split; [discriminate|]. intros [e He]. discriminate.
    + eexists [], _, _. split; [reflexivity|]. cbn [length].
      split; [lia|]. split; [constructor|].
      split; [reflexivity|]. split; [reflexivity|].
      split; eauto.
  - apply Z.eqb_neq in Hn. exists []. split; [reflexivity|].
    split; [reflexivity|]. congruence.
Qed.

Lemma page_decorations_witness :
  @_add_page_decorations Fixture.world_with_logo Fixture.pillow_logo 2
    report_template
  = [SaveState; SetFont "Helvetica" 8; footer_op report_template;
     RestoreState].
Proof.
  destruct (@page_decorations_shape Fixture.world_with_logo
              Fixture.pillow_logo 2 report_template)
    as (mid & Hd & Hmid & _).
  rewrite Hd, (Hmid ltac:(discriminate)). reflexivity.
Defined.

(** ** Building the document *)

Lemma enumerated_paragraphs `{Python} `{Reportlab} ab_list :
  forall i ps, enumerated i ab_list = Ok ps ->
    Forall (fun fl => is_paragraph fl = true) ps.
Proof.
  induction ab_list as [|ab rest IH]; intros i ps Hps; cbn [enumerated] in Hps.
  - injection Hps as <-. constructor.
  - destruct (dict_get ab "name" _); [|discriminate].
    destruct (new_paragraph _ CustomNormal) as [p|] eqn:Hp; [|discriminate].
    apply new_paragraph_Ok in Hp as [_ ->].
    destruct (enumerated (i + 1) rest) as [ps'|] eqn:Hrest; [|discriminate].
    injection Hps as <-. constructor; [reflexivity|eauto].
Qed.

Lemma findings_paragraphs `{Python} `{Reportlab} abnormal ab_list fs :
  findings abnormal ab_list = Ok fs ->
  Forall (fun fl => is_paragraph fl = true) fs.
Proof.
  unfold findings. destruct (abnormal && _).
  - destruct (new_paragraph "Abnormalities:" SubHeader) as [hd|] eqn:Hh;
      [|discriminate].
    apply new_paragraph_Ok in Hh as [_ ->].
    destruct (enumerated 1 ab_list) as [ps|] eqn:Hps; [|discriminate].
    intros [= <-]. constructor; [reflexivity|].
    eapply enumerated_paragraphs; eauto.
  - destruct (new_paragraph "Normal" CustomNormal) as [p|] eqn:Hn;
      [|discriminate].
    apply new_paragraph_Ok in Hn as [_ ->].
    intros [= <-]. repeat constructor.
Qed.

Lemma story_images_paragraphs fs rest :
  Forall (fun fl => is_paragraph fl = true) fs ->
  story_images (fs ++ rest) = story_images rest /\
  filter (fun fl => is_PageBreak fl = true) (fs ++ rest)
  = filter (fun fl => is_PageBreak fl = true) rest.
Proof.
  induction 1 as [|fl fs Hfl _ IH]; [auto|].
  destruct fl; try discriminate. cbn [app story_images].
  rewrite filter_cons_False by (simpl; discriminate). exact IH.
Qed.

Lemma report_elems_Ok `{Python} `{Reportlab} orig ann det abnormal ab_list
    h elems h1 :
  report_elems orig ann det abnormal ab_list h = Ok (elems, h1) ->
  h1 = h /\
  exists fs o a,
    findings abnormal ab_list = Ok fs /\
    h !! orig = Some o /\ h !! ann = Some a /\
    elems = elems_before det ++ fs ++ elems_after det o a.
Proof.
  unfold report_elems. intros Hrun.
  apply bind_Ok in Hrun as ([] & h2 & Hc & Hrun).
  apply lift_Ok in Hc as [_ ->].
  apply bind_Ok in Hrun as (fs & h2 & Hfs & Hrun).
  apply lift_Ok in Hfs as [Hfs ->].
  apply bind_Ok in Hrun as ([] & h2 & Hc & Hrun).
  apply lift_Ok in Hc as [_ ->].
  apply bind_Ok in Hrun as ([] & h2 & Hc & Hrun).
  apply lift_Ok in Hc as [_ ->].
  apply bind_Ok in Hrun as (o & h2 & Ho & Hrun).
  apply deref_Ok in Ho as [Ho ->].
  apply bind_Ok in Hrun as ([] & h2 & Hc & Hrun).
  apply lift_Ok in Hc as [_ ->].
  apply bind_Ok in Hrun as (a & h2 & Ha & Hrun).
  apply deref_Ok in Ha as [Ha ->].
  apply ret_Ok in Hrun as [-> ->].
  split; [reflexivity|]. exists fs, o, a. auto.
Qed.

Lemma story_images_of_report `{Python} det fs o a :
  Forall (fun fl => is_paragraph fl = true) fs ->
  story_images (elems_before det ++ fs ++ elems_after det o a) = [o; a].
Proof.
  intros Hp.
  destruct (story_images_paragraphs fs (elems_after det o a) Hp) as [Hi _].
  unfold elems_before, patient_details. cbn [app story_images].
  rewrite Hi. reflexivity.
Qed.

(** X16.  The story of a report embeds exactly two images, the original
    first and the annotated second, each after its own page break, and has
    no other page break, however many findings there are; building it
    leaves the store as it was. *)
Theorem story_has_two_image_pages `{Python} `{Reportlab}
    (orig ann : loc) (det : gmap string string) (abnormal : bool)
    (ab_list : list json) (h h1 : heap) (elems : list flowable) :
  report_elems orig ann det abnormal ab_list h = Ok (elems, h1) ->
  h1 = h /\
  exists o a,
    h !! orig = Some o /\ h !! ann = Some a /\
    story_images elems = [o; a] /\
    length (filter (fun fl => is_PageBreak fl = true) elems) = 2%nat /\
    exists first,
      elems = first ++
        [PageBreak; Paragraph "Original X-ray Image" SectionHeader;
         RLImage o (F64.mul (F64.of_Z 6) inch) (F64.mul (F64.of_Z 6) inch);
         PageBreak; Paragraph "Annotated X-ray Image" SectionHeader;
         RLImage a (F64.mul (F64.of_Z 6) inch) (F64.mul (F64.of_Z 6) inch)].
Proof.
  intros Hrun.
  destruct (report_elems_Ok _ _ _ _ _ _ _ _ Hrun)
    as (-> & fs & o & a & Hfs & Ho & Ha & ->).
  split; [reflexivity|]. exists o, a.
  split; [exact Ho|]. split; [exact Ha|].
  pose proof (findings_paragraphs _ _ _ Hfs) as Hp.
  destruct (story_images_paragraphs fs (elems_after det o a) Hp) as [Hi Hb].
  split; [|split].
  - apply story_images_of_report, Hp.
  - unfold elems_before, patient_details. cbn [app].
    rewrite !filter_cons_False by (simpl; discriminate).
    rewrite Hb. reflexivity.
  - exists (elems_before det ++ fs ++ elems_notes det).
    unfold elems_after. rewrite <- !app_assoc. reflexivity.
Qed.

Lemma story_witness :
  exists elems,
    @report_elems Sample.python Sample.reportlab 3%nat 3%nat ∅ true
      [Sample.nodule] Sample.one_image = Ok (elems, Sample.one_image) /\
    story_images elems = [Sample.canvas; Sample.canvas].
Proof.
  assert (Hrun : exists elems,
    @report_elems Sample.python Sample.reportlab 3%nat 3%nat ∅ true
      [Sample.nodule] Sample.one_image = Ok (elems, Sample.one_image))
    by (vm_compute; eexists; reflexivity).
  destruct Hrun as [elems Hrun]. exists elems. split; [exact Hrun|].
  destruct (@story_has_two_image_pages Sample.python Sample.reportlab
              _ _ _ _ _ _ _ _ Hrun)
    as (_ & o & a & Ho & Ha & Hi & _).
  rewrite Hi. vm_compute in Ho, Ha.
  injection Ho as <-. injection Ha as <-. reflexivity.
Defined.

(** X17.  [generate_pdf_report] reads the two images and leaves the store
    as it was; it succeeds only if both images exist. *)
Theorem generate_pdf_report_reads_only
    `{World} `{Pillow} `{Reportlab} `{Python}
    (orig ann : loc) (det : gmap string string) (abnormal : bool)
    (ab_list : list json) (h h1 : heap) (pdf : list pdf_page) :
  generate_pdf_report orig ann det abnormal ab_list h = Ok (pdf, h1) ->
  h1 = h /\ is_Some (h !! orig) /\ is_Some (h !! ann) /\
  exists elems,
    report_elems orig ann det abnormal ab_list h = Ok (elems, h) /\
    build report_template elems = Ok pdf.
Proof.
  unfold generate_pdf_report. intros Hrun.
  apply bind_Ok in Hrun as (elems & h2 & He & Hrun).
  apply lift_Ok in Hrun as [Hb ->].
  destruct (report_elems_Ok _ _ _ _ _ _ _ _ He)
    as (-> & fs & o & a & _ & Ho & Ha & _).
  split; [reflexivity|]. split; [eauto|]. split; [eauto|].
  exists elems. auto.
Qed.

Lemma generate_pdf_report_witness :
  exists pdf,
    @generate_pdf_report Sample.world Sample.pillow Sample.reportlab
      Sample.python 3%nat 3%nat ∅ true [Sample.nodule] Sample.one_image
    = Ok (pdf, Sample.one_image).
Proof.
  assert (Hrun : exists pdf h1,
    @generate_pdf_report Sample.world Sample.pillow Sample.reportlab
      Sample.python 3%nat 3%nat ∅ true [Sample.nodule] Sample.one_image
    = Ok (pdf, h1)) by (vm_compute; eexists _, _; reflexivity).
  destruct Hrun as (pdf & h1 & Hrun). exists pdf.
  destruct (@generate_pdf_report_reads_only Sample.world Sample.pillow
              Sample.reportlab Sample.python _ _ _ _ _ _ _ _ Hrun)
    as (Hh & _).
  subst h1. exact Hrun.
Defined.

(** ** The details and the response *)



(** X19.  A successful [create_report] answers with the PDF media type and
    the attachment header, and its document is built from a story that
    embeds exactly the two images [process_image] returned for this
    request, the plain one first; the compositor leaves the store of the
    image stage untouched. *)
Theorem create_report_embeds_the_images
    `{Pydicom} `{Numpy} `{Pillow} `{Python} `{World} `{Reportlab}
    (req : request) (h h1 : heap) (resp : StreamingResponse) :
  create_report req h = Ok (resp, h1) ->
  valid_suffix (filename (upload req)) = true /\
  media_type resp = "application/pdf" /\
  headers resp = [("Content-Disposition",
                   "attachment; filename=medical_report.pdf")] /\
  exists ab_list orig ann o a elems,
    report_images req h = Ok ((ab_list, (orig, ann)), h1) /\
    h1 !! orig = Some o /\ h1 !! ann = Some a /\
    story_images elems = [o; a] /\
    build report_template elems = Ok (body resp).
Proof.
  unfold create_report. intros Hrun.
  apply bind_Ok in Hrun as ([ab_list [orig ann]] & h2 & Himg & Hrun).
  cbn [fst snd] in Hrun.
  apply bind_Ok in Hrun as (pdf & h3 & Hgen & Hrun).
  apply ret_Ok in Hrun as [-> ->].
  unfold generate_pdf_report in Hgen.
  apply bind_Ok in Hgen as (elems & h4 & He & Hgen).
  apply lift_Ok in Hgen as [Hb ->].
  destruct (report_elems_Ok _ _ _ _ _ _ _ _ He)
    as (-> & fs & o & a & Hfs & Ho & Ha & ->).
  split.
  { unfold report_images in Himg.
    destruct (valid_suffix _); [reflexivity|discriminate]. }
  split; [reflexivity|]. split; [reflexivity|].
  eexists ab_list, orig, ann, o, a, _.
  split; [exact Himg|]. split; [exact Ho|]. split; [exact Ha|].
  split; [|exact Hb].
  apply story_images_of_report. eapply findings_paragraphs; eauto.
Qed.

Lemma create_report_witness :
  exists resp h1,
    @create_report Sample.pydicom Sample.numpy Sample.pillow Sample.python
      Sample.world Sample.reportlab Fixture.named_request ∅ = Ok (resp, h1) /\
    media_type resp = "application/pdf".
Proof.
  assert (Hrun : exists resp h1,
    @create_report Sample.pydicom Sample.numpy Sample.pillow Sample.python
      Sample.world Sample.reportlab Fixture.named_request ∅ = Ok (resp, h1))
    by (vm_compute; eexists _, _; reflexivity).
  destruct Hrun as (resp & h1 & Hrun). exists resp, h1.
  split; [exact Hrun|].
  exact (proj1 (proj2 (@create_report_embeds_the_images Sample.pydicom
           Sample.numpy Sample.pillow Sample.python Sample.world
           Sample.reportlab _ _ _ _ Hrun))).
Defined.
